(** * github-mcp-server: the gateway of [src/index.js], embedded and verified

    The gateway forwards five GitHub operations to the upstream REST client
    ([octokit]) through two front-ends: conventional REST routes and the
    tool-invocation route [POST /execute].  This development embeds the
    handlers of [src/index.js] (and of the minimal variant of the same server,
    which has the [/sse] and [/execute] routes only) as programs of a small
    state-and-exception monad over an arbitrary upstream, together with the
    parts of the JavaScript platform the handlers rely on: UTF-16 strings,
    [||] defaulting, template literals, [JSON.stringify], and the UTF-8 and
    base64 codecs of [Buffer]. *)

From Stdlib Require Import List String Ascii NArith ZArith Lia Bool.
From Stdlib.Strings Require Import Byte.
From Stdlib Require Import DecimalString.
Import ListNotations.
Set Warnings "-register-all".
Local Open Scope string_scope.
Local Open Scope list_scope.
Local Open Scope N_scope.

(** ** JavaScript strings

    A JavaScript string is a sequence of UTF-16 code units; a code unit is a
    number below 2^16. *)

Definition code_unit := N.
Definition jsstring := list code_unit.

(** A string literal of the source (all of them are ASCII). *)
Definition lit (s : string) : jsstring :=
  map N_of_ascii (list_ascii_of_string s).

Definition jsstring_eqb (a b : jsstring) : bool :=
  if list_eq_dec N.eq_dec a b then true else false.

Definition is_high_surrogate (u : code_unit) : bool :=
  (0xD800 <=? u) && (u <=? 0xDBFF).
Definition is_low_surrogate (u : code_unit) : bool :=
  (0xDC00 <=? u) && (u <=? 0xDFFF).

(** A string is well formed when every code unit fits 16 bits and every
    surrogate belongs to a high/low pair. *)
Fixpoint well_formed (s : jsstring) : bool :=
  match s with
  | [] => true
  | u :: rest =>
      if is_high_surrogate u then
        match rest with
        | v :: rest' => is_low_surrogate v && well_formed rest'
        | [] => false
        end
      else (u <? 0x10000) && negb (is_low_surrogate u) && well_formed rest
  end.

(** ** Values

    [json] is the JSON data model: what [JSON.parse] yields and what
    [res.json] can send.  A JavaScript expression that may also be
    [undefined] is an [option]. *)

Inductive json : Type :=
| JNull
| JBool (b : bool)
| JNum (n : Z)
| JStr (s : jsstring)
| JArr (items : list json)
| JObj (fields : list (jsstring * json)).

(** An object literal [{k1: e1, ..., kn: en}] as [JSON.stringify] sees it:
    a property whose value is [undefined] is left out. *)
Fixpoint defined_props (props : list (string * option json))
    : list (jsstring * json) :=
  match props with
  | [] => []
  | (k, Some v) :: rest => (lit k, v) :: defined_props rest
  | (_, None) :: rest => defined_props rest
  end.

Definition js_object (props : list (string * option json)) : json :=
  JObj (defined_props props).

Definition js_string (x : option jsstring) : option json := option_map JStr x.

(** [x || d] where [x] is a string or [undefined] and [d] a string: the
    falsy values of that type are [undefined] and the empty string. *)
Definition or_default (x : option jsstring) (d : jsstring) : jsstring :=
  match x with
  | Some (u :: s) => u :: s
  | Some [] => d
  | None => d
  end.

(** [`${x}`]: the string conversion of a template literal. *)
Definition template (x : option jsstring) : jsstring :=
  match x with
  | Some s => s
  | None => lit "undefined"
  end.

(** Object property lookup (first binding wins). *)
Fixpoint get_field (k : jsstring) (fs : list (jsstring * json)) : option json :=
  match fs with
  | [] => None
  | (k', v) :: rest => if jsstring_eqb k k' then Some v else get_field k rest
  end.

Definition get_prop (k : string) (v : json) : option json :=
  match v with
  | JObj fs => get_field (lit k) fs
  | _ => None
  end.

(** ** JSON.stringify *)

Definition hex_digit (n : N) : code_unit :=
  if n <? 10 then 48 + n else 87 + n.

(** [\uXXXX] with lower-case hexadecimal digits. *)
Definition unicode_escape (u : code_unit) : jsstring :=
  [92; 117; hex_digit (u / 4096 mod 16); hex_digit (u / 256 mod 16);
   hex_digit (u / 16 mod 16); hex_digit (u mod 16)].

Definition escape_unit (u : code_unit) : jsstring :=
  if u =? 8 then [92; 98]
  else if u =? 9 then [92; 116]
  else if u =? 10 then [92; 110]
  else if u =? 12 then [92; 102]
  else if u =? 13 then [92; 114]
  else if u =? 34 then [92; 34]
  else if u =? 92 then [92; 92]
  else if u <? 32 then unicode_escape u
  else [u].

Fixpoint quote_units (s : jsstring) : jsstring :=
  match s with
  | [] => []
  | u :: rest =>
      if is_high_surrogate u then
        match rest with
        | v :: rest' =>
            if is_low_surrogate v then u :: v :: quote_units rest'
            else unicode_escape u ++ quote_units rest
        | [] => unicode_escape u
        end
      else if is_low_surrogate u then unicode_escape u ++ quote_units rest
      else escape_unit u ++ quote_units rest
  end.

Definition quote (s : jsstring) : jsstring := [34] ++ quote_units s ++ [34].

Definition number_to_string (n : Z) : jsstring :=
  lit (NilZero.string_of_int (Z.to_int n)).

Fixpoint JSON_stringify (v : json) : jsstring :=
  match v with
  | JNull => lit "null"
  | JBool true => lit "true"
  | JBool false => lit "false"
  | JNum n => number_to_string n
  | JStr s => quote s
  | JArr items =>
      lit "[" ++
      (fix elements (l : list json) : jsstring :=
         match l with
         | [] => []
         | x :: r =>
             match r with
             | [] => JSON_stringify x
             | _ :: _ => JSON_stringify x ++ lit "," ++ elements r
             end
         end) items ++
      lit "]"
  | JObj fields =>
      lit "{" ++
      (fix members (l : list (jsstring * json)) : jsstring :=
         match l with
         | [] => []
         | (k, x) :: r =>
             match r with
             | [] => quote k ++ lit ":" ++ JSON_stringify x
             | _ :: _ => quote k ++ lit ":" ++ JSON_stringify x ++ lit "," ++ members r
             end
         end) fields ++
      lit "}"
  end.

(** ** Exceptions

    An evaluation either completes with a value or throws; a thrown error is
    represented by its [message], the only part the handlers read. *)

Inductive outcome (A : Type) : Type :=
| Normal (a : A)
| Throw (message : jsstring).
Arguments Normal {A} a.
Arguments Throw {A} message.

(** ** Buffer: the UTF-8 and base64 codecs *)

Definition byte_of_N (n : N) : byte :=
  match Byte.of_N (n mod 256) with
  | Some b => b
  | None => x00
  end.

Definition utf8_of_code_point (c : N) : list byte :=
  if c <? 0x80 then [byte_of_N c]
  else if c <? 0x800 then
    [byte_of_N (0xC0 + c / 64); byte_of_N (0x80 + c mod 64)]
  else if c <? 0x10000 then
    [byte_of_N (0xE0 + c / 4096); byte_of_N (0x80 + c / 64 mod 64);
     byte_of_N (0x80 + c mod 64)]
  else
    [byte_of_N (0xF0 + c / 262144); byte_of_N (0x80 + c / 4096 mod 64);
     byte_of_N (0x80 + c / 64 mod 64); byte_of_N (0x80 + c mod 64)].

(** [Buffer.from(s)] (encoding 'utf8'): a surrogate pair is one code point,
    an unpaired surrogate is written as U+FFFD. *)
Fixpoint utf8_encode (s : jsstring) : list byte :=
  match s with
  | [] => []
  | u :: rest =>
      if is_high_surrogate u then
        match rest with
        | v :: rest' =>
            if is_low_surrogate v then
              utf8_of_code_point (0x10000 + (u - 0xD800) * 1024 + (v - 0xDC00))
                ++ utf8_encode rest'
            else utf8_of_code_point 0xFFFD ++ utf8_encode rest
        | [] => utf8_of_code_point 0xFFFD
        end
      else if is_low_surrogate u then utf8_of_code_point 0xFFFD ++ utf8_encode rest
      else utf8_of_code_point u ++ utf8_encode rest
  end.

(** [buf.toString('utf-8')]: the decoder keeps the code point under
    construction, the number of continuation bytes still needed and the range
    the next byte must fall in; every ill-formed subsequence becomes U+FFFD. *)
Record utf8_state : Type := {
  code_point : N;
  bytes_needed : N;
  lower_boundary : N;
  upper_boundary : N
}.

Definition utf8_initial : utf8_state :=
  {| code_point := 0; bytes_needed := 0;
     lower_boundary := 0x80; upper_boundary := 0xBF |}.

Definition units_of_code_point (c : N) : jsstring :=
  if c <? 0x10000 then [c]
  else [0xD800 + (c - 0x10000) / 1024; 0xDC00 + (c - 0x10000) mod 1024].

Definition utf8_lead (x : N) : jsstring * utf8_state :=
  if x <=? 0x7F then ([x], utf8_initial)
  else if (0xC2 <=? x) && (x <=? 0xDF) then
    ([], {| code_point := x mod 32; bytes_needed := 1;
            lower_boundary := 0x80; upper_boundary := 0xBF |})
  else if (0xE0 <=? x) && (x <=? 0xEF) then
    ([], {| code_point := x mod 16; bytes_needed := 2;
            lower_boundary := if x =? 0xE0 then 0xA0 else 0x80;
            upper_boundary := if x =? 0xED then 0x9F else 0xBF |})
  else if (0xF0 <=? x) && (x <=? 0xF4) then
    ([], {| code_point := x mod 8; bytes_needed := 3;
            lower_boundary := if x =? 0xF0 then 0x90 else 0x80;
            upper_boundary := if x =? 0xF4 then 0x8F else 0xBF |})
  else ([0xFFFD], utf8_initial).

Definition utf8_step (st : utf8_state) (x : N) : jsstring * utf8_state :=
  if bytes_needed st =? 0 then utf8_lead x
  else if (lower_boundary st <=? x) && (x <=? upper_boundary st) then
    let c := code_point st * 64 + x mod 64 in
    if bytes_needed st =? 1 then (units_of_code_point c, utf8_initial)
    else ([], {| code_point := c; bytes_needed := bytes_needed st - 1;
                 lower_boundary := 0x80; upper_boundary := 0xBF |})
  else
    let (out, st') := utf8_lead x in (0xFFFD :: out, st').

Fixpoint utf8_decode_from (st : utf8_state) (bs : list byte) : jsstring :=
  match bs with
  | [] => if bytes_needed st =? 0 then [] else [0xFFFD]
  | b :: rest =>
      let (out, st') := utf8_step st (Byte.to_N b) in
      out ++ utf8_decode_from st' rest
  end.

Definition utf8_decode (bs : list byte) : jsstring :=
  utf8_decode_from utf8_initial bs.

(** base64 text is ASCII; it is kept as a [string]. *)
Definition base64_alphabet : string :=
  "ABCDEFGHIJKLMNOPQRSTUVWXYZabcdefghijklmnopqrstuvwxyz0123456789+/".

Definition base64_char (n : N) : ascii :=
  match String.get (N.to_nat n) base64_alphabet with
  | Some c => c
  | None => "="%char
  end.

(** [buf.toString('base64')] *)
Fixpoint base64_encode (bs : list byte) : string :=
  match bs with
  | [] => EmptyString
  | a :: r1 =>
      let a := Byte.to_N a in
      match r1 with
      | [] =>
          String (base64_char (a / 4)) (String (base64_char (a mod 4 * 16)) "==")
      | b :: r2 =>
          let b := Byte.to_N b in
          match r2 with
          | [] =>
              String (base64_char (a / 4))
                (String (base64_char (a mod 4 * 16 + b / 16))
                   (String (base64_char (b mod 16 * 4)) "="))
          | c :: rest =>
              let c := Byte.to_N c in
              String (base64_char (a / 4))
                (String (base64_char (a mod 4 * 16 + b / 16))
                   (String (base64_char (b mod 16 * 4 + c / 64))
                      (String (base64_char (c mod 64)) (base64_encode rest))))
          end
      end
  end.

(** The value of a base64 character; the URL-safe [-] and [_] are accepted
    too. *)
Definition unbase64 (c : ascii) : option N :=
  let x := N_of_ascii c in
  if (65 <=? x) && (x <=? 90) then Some (x - 65)
  else if (97 <=? x) && (x <=? 122) then Some (x - 71)
  else if (48 <=? x) && (x <=? 57) then Some (x + 4)
  else if (x =? 43) || (x =? 45) then Some 62
  else if (x =? 47) || (x =? 95) then Some 63
  else None.

(** The decoder is lenient: a character outside the alphabet (white space,
    line breaks) is skipped, and decoding stops at the first [=]. *)
Fixpoint base64_sextets (s : string) : list N :=
  match s with
  | EmptyString => []
  | String c rest =>
      match unbase64 c with
      | Some v => v :: base64_sextets rest
      | None => if (N_of_ascii c =? 61) then [] else base64_sextets rest
      end
  end.

Fixpoint base64_bytes (l : list N) : list byte :=
  match l with
  | a :: b :: r2 =>
      byte_of_N (a * 4 + b / 16) ::
      match r2 with
      | c :: r3 =>
          byte_of_N (b mod 16 * 16 + c / 4) ::
          match r3 with
          | d :: rest => byte_of_N (c mod 4 * 64 + d) :: base64_bytes rest
          | [] => []
          end
      | [] => []
      end
  | _ => []
  end.

(** [Buffer.from(s, 'base64')] on a string *)
Definition base64_decode (s : string) : list byte :=
  base64_bytes (base64_sextets s).

Definition buffer_type_error : jsstring :=
  lit "The first argument must be of type string or an instance of Buffer, ArrayBuffer, or Array or an Array-like Object. Received undefined".

(** [Buffer.from(x)] and [Buffer.from(x, 'base64')]: a string is encoded,
    [undefined] is a [TypeError]. *)
Definition Buffer_from (x : option jsstring) : outcome (list byte) :=
  match x with
  | Some s => Normal (utf8_encode s)
  | None => Throw buffer_type_error
  end.

Definition Buffer_from_base64 (x : option string) : outcome (list byte) :=
  match x with
  | Some s => Normal (base64_decode s)
  | None => Throw buffer_type_error
  end.

(** ** The upstream client

    Parameters and results of the seven [octokit] methods the handlers call.
    A parameter the handler may leave [undefined] is an [option]; result
    fields are the fields the handlers read from [response.data]. *)

Record ListParams : Type := {
  lp_visibility : jsstring;
  lp_sort : jsstring;
  lp_per_page : Z
}.

Record ContentParams : Type := {
  cp_owner : option jsstring;
  cp_repo : option jsstring;
  cp_path : option jsstring;
  cp_ref : option jsstring
}.

Record WriteParams : Type := {
  wp_owner : option jsstring;
  wp_repo : option jsstring;
  wp_path : option jsstring;
  wp_message : option jsstring;
  wp_content : string;
  wp_branch : option jsstring;
  wp_sha : option json
}.

Record RepoParams : Type := {
  rp_owner : option jsstring;
  rp_repo : option jsstring
}.

Record GetRefParams : Type := {
  gr_owner : option jsstring;
  gr_repo : option jsstring;
  gr_ref : jsstring
}.

Record CreateRefParams : Type := {
  cr_owner : option jsstring;
  cr_repo : option jsstring;
  cr_ref : jsstring;
  cr_sha : json
}.

Record PullParams : Type := {
  pl_owner : option jsstring;
  pl_repo : option jsstring;
  pl_title : option jsstring;
  pl_body : jsstring;
  pl_head : option jsstring;
  pl_base : option jsstring
}.

(** An element of the repository listing: [r.name], [r.full_name],
    [r.owner.login], [r.private], [r.description], [r.html_url],
    [r.default_branch]. *)
Record Repository : Type := {
  r_name : json;
  r_full_name : json;
  r_owner_login : json;
  r_private : json;
  r_description : json;
  r_html_url : json;
  r_default_branch : json
}.

(** A file as the contents API describes it; [content] is base64 text and is
    missing for entries that carry none (a submodule). *)
Record FileData : Type := {
  fd_content : option string;
  fd_sha : json;
  fd_size : json;
  fd_path : json
}.

(** [file.data]: an array for a directory, an object for a file. *)
Inductive ContentData : Type :=
| Directory (entries : list json)
| File (f : FileData).

Record WriteData : Type := {
  wd_commit_sha : json;
  wd_content : json
}.

Record RepoData : Type := {
  rd_default_branch : jsstring
}.

Record RefData : Type := {
  ref_object_sha : json
}.

Record PullData : Type := {
  pd_number : json;
  pd_html_url : json;
  pd_state : json
}.

(** The client over a state [World] of the upstream service: a call changes
    the world and resolves ([Normal]) or rejects ([Throw]). *)
Record Octokit (World : Type) : Type := {
  repos_listForAuthenticatedUser :
    ListParams -> World -> outcome (list Repository) * World;
  repos_getContent : ContentParams -> World -> outcome ContentData * World;
  repos_createOrUpdateFileContents :
    WriteParams -> World -> outcome WriteData * World;
  repos_get : RepoParams -> World -> outcome RepoData * World;
  git_getRef : GetRefParams -> World -> outcome RefData * World;
  git_createRef : CreateRefParams -> World -> outcome RefData * World;
  pulls_create : PullParams -> World -> outcome PullData * World
}.
Arguments repos_listForAuthenticatedUser {World} _ _ _.
Arguments repos_getContent {World} _ _ _.
Arguments repos_createOrUpdateFileContents {World} _ _ _.
Arguments repos_get {World} _ _ _.
Arguments git_getRef {World} _ _ _.
Arguments git_createRef {World} _ _ _.
Arguments pulls_create {World} _ _ _.

(** ** Requests and responses

    Route parameters are strings.  Values of the query string and of a JSON
    body are taken to be strings, the type every tool argument is declared
    with, or to be missing ([undefined]). *)

Record Response : Type := {
  status : N;
  body : json
}.

(** [res.status(code).json(value)]; [res.json(value)] is status 200. *)
Definition res_json (code : N) (value : json) : Response :=
  {| status := code; body := value |}.

(** [req.query] of GET /repos *)
Record ReposQuery : Type := {
  q_visibility : option jsstring
}.

(** GET /repos/:owner/:repo/contents/*: [req.params] and [req.query] *)
Record GetContentsReq : Type := {
  gc_owner : jsstring;
  gc_repo : jsstring;
  gc_path : jsstring;
  gc_branch : option jsstring
}.

(** PUT /repos/:owner/:repo/contents/*: [req.params] and [req.body] *)
Record PutContentsReq : Type := {
  pc_owner : jsstring;
  pc_repo : jsstring;
  pc_path : jsstring;
  pc_content : option jsstring;
  pc_message : option jsstring;
  pc_branch : option jsstring
}.

(** POST /repos/:owner/:repo/branches *)
Record PostBranchesReq : Type := {
  pb_owner : jsstring;
  pb_repo : jsstring;
  pb_branch : option jsstring;
  pb_from_branch : option jsstring
}.

(** POST /repos/:owner/:repo/pulls *)
Record PostPullsReq : Type := {
  pp_owner : jsstring;
  pp_repo : jsstring;
  pp_title : option jsstring;
  pp_body : option jsstring;
  pp_head : option jsstring;
  pp_base : option jsstring
}.

(** The [arguments] object of POST /execute: every argument the tools'
    [inputSchema] declares is a string; any of them may be missing. *)
Record Arguments : Type := {
  a_visibility : option jsstring;
  a_owner : option jsstring;
  a_repo : option jsstring;
  a_path : option jsstring;
  a_branch : option jsstring;
  a_content : option jsstring;
  a_message : option jsstring;
  a_from_branch : option jsstring;
  a_title : option jsstring;
  a_body : option jsstring;
  a_head : option jsstring;
  a_base : option jsstring
}.

(** [req.body] of POST /execute *)
Record ExecuteBody : Type := {
  tool : option jsstring;
  arguments : option Arguments
}.

(** [tool === 'name'], the test of a [case] label. *)
Definition is_tool (t : option jsstring) (name : string) : bool :=
  match t with
  | Some s => jsstring_eqb s (lit name)
  | None => false
  end.

(** [r => ({name: r.name, ..., default_branch: r.default_branch})] *)
Definition repository_summary (r : Repository) : json :=
  js_object
    [("name", Some (r_name r));
     ("full_name", Some (r_full_name r));
     ("owner", Some (r_owner_login r));
     ("private", Some (r_private r));
     ("description", Some (r_description r));
     ("url", Some (r_html_url r));
     ("default_branch", Some (r_default_branch r))].

(** [existing.data.sha]: an array has no such property. *)
Definition data_sha (d : ContentData) : option json :=
  match d with
  | Directory _ => None
  | File f => Some (fd_sha f)
  end.

Definition error_body (message : jsstring) : json :=
  js_object [("error", Some (JStr message))].

(** ** Discovery documents

    Object literals of the source, written with [object] (all properties are
    defined) and [str]. *)

Definition str (s : string) : json := JStr (lit s).

Definition object (props : list (string * json)) : json :=
  JObj (map (fun p => (lit (fst p), snd p)) props).

(** [{ type: 'string', description: d }] *)
Definition string_property (d : string) : json :=
  object [("type", str "string"); ("description", str d)].

(** The [tools] array of the GET /metadata handler. *)
Definition metadata_tools : list json :=
  [ object
      [("name", str "list_repositories");
       ("description", str "List all accessible repositories");
       ("inputSchema",
        object
          [("type", str "object");
           ("properties",
            object
              [("visibility",
                object
                  [("type", str "string");
                   ("enum", JArr [str "all"; str "public"; str "private"]);
                   ("description", str "Filter by visibility")])])])];
    object
      [("name", str "get_file");
       ("description", str "Get file contents from a repository");
       ("inputSchema",
        object
          [("type", str "object");
           ("properties",
            object
              [("owner", string_property "Repository owner");
               ("repo", string_property "Repository name");
               ("path", string_property "File path");
               ("branch", string_property "Branch name (optional)")]);
           ("required", JArr [str "owner"; str "repo"; str "path"])])];
    object
      [("name", str "create_or_update_file");
       ("description", str "Create or update a file in a repository");
       ("inputSchema",
        object
          [("type", str "object");
           ("properties",
            object
              [("owner", string_property "Repository owner");
               ("repo", string_property "Repository name");
               ("path", string_property "File path");
               ("content", string_property "File content");
               ("message", string_property "Commit message");
               ("branch", string_property "Branch name (optional)")]);
           ("required",
            JArr [str "owner"; str "repo"; str "path"; str "content";
                  str "message"])])];
    object
      [("name", str "create_branch");
       ("description", str "Create a new branch");
       ("inputSchema",
        object
          [("type", str "object");
           ("properties",
            object
              [("owner", string_property "Repository owner");
               ("repo", string_property "Repository name");
               ("branch", string_property "New branch name");
               ("from_branch", string_property "Source branch (optional)")]);
           ("required", JArr [str "owner"; str "repo"; str "branch"])])];
    object
      [("name", str "create_pull_request");
       ("description", str "Create a pull request");
       ("inputSchema",
        object
          [("type", str "object");
           ("properties",
            object
              [("owner", string_property "Repository owner");
               ("repo", string_property "Repository name");
               ("title", string_property "PR title");
               ("body", string_property "PR description");
               ("head", string_property "Source branch");
               ("base", string_property "Target branch")]);
           ("required",
            JArr [str "owner"; str "repo"; str "title"; str "head";
                  str "base"])])] ].

(** The [metadata] object of GET /metadata. *)
Definition http_metadata : json :=
  object
    [("name", str "github-mcp-server");
     ("version", str "1.0.0");
     ("description", str "GitHub operations with read/write access");
     ("protocol", str "http");
     ("tools", JArr metadata_tools)].

(** The [tools] array of the GET /sse handler (the same text in both
    variants of the server). *)
Definition sse_tools : list json :=
  [ object
      [("name", str "list_repositories");
       ("description", str "List all accessible repositories");
       ("inputSchema",
        object
          [("type", str "object");
           ("properties",
            object
              [("visibility",
                object
                  [("type", str "string");
                   ("enum", JArr [str "all"; str "public"; str "private"]);
                   ("description", str "Filter by visibility")])])])];
    object
      [("name", str "get_file");
       ("description", str "Get file contents from a repository");
       ("inputSchema",
        object
          [("type", str "object");
           ("properties",
            object
              [("owner", string_property "Repository owner");
               ("repo", string_property "Repository name");
               ("path", string_property "File path");
               ("branch", string_property "Branch name (optional)")]);
           ("required", JArr [str "owner"; str "repo"; str "path"])])];
    object
      [("name", str "create_or_update_file");
       ("description", str "Create or update a file in a repository");
       ("inputSchema",
        object
          [("type", str "object");
           ("properties",
            object
              [("owner", string_property "Repository owner");
               ("repo", string_property "Repository name");
               ("path", string_property "File path");
               ("content",
                string_property "File content (will be base64 encoded)");
               ("message", string_property "Commit message");
               ("branch",
                string_property
                  "Branch name (optional, defaults to default branch)")]);
           ("required",
            JArr [str "owner"; str "repo"; str "path"; str "content";
                  str "message"])])];
    object
      [("name", str "create_branch");
       ("description", str "Create a new branch");
       ("inputSchema",
        object
          [("type", str "object");
           ("properties",
            object
              [("owner", string_property "Repository owner");
               ("repo", string_property "Repository name");
               ("branch", string_property "New branch name");
               ("from_branch", string_property "Source branch (optional)")]);
           ("required", JArr [str "owner"; str "repo"; str "branch"])])];
    object
      [("name", str "create_pull_request");
       ("description", str "Create a pull request");
       ("inputSchema",
        object
          [("type", str "object");
           ("properties",
            object
              [("owner", string_property "Repository owner");
               ("repo", string_property "Repository name");
               ("title", string_property "PR title");
               ("body", string_property "PR description");
               ("head", string_property "Source branch");
               ("base", string_property "Target branch")]);
           ("required",
            JArr [str "owner"; str "repo"; str "title"; str "head";
                  str "base"])])] ].

(** The [metadata] object of GET /sse. *)
Definition sse_metadata : json :=
  object
    [("name", str "github-mcp-server");
     ("version", str "1.0.0");
     ("description", str "GitHub operations with read/write access");
     ("tools", JArr sse_tools)].

(** The document of GET /.well-known/ai-plugin.json; [host] is
    [req.get('host')]. *)
Definition plugin_manifest (host : option jsstring) : json :=
  object
    [("schema_version", str "v1");
     ("name_for_human", str "GitHub Manager");
     ("name_for_model", str "github");
     ("description_for_human",
      str "Manage GitHub repositories: read/write files, create branches, and PRs");
     ("description_for_model",
      str "Plugin for GitHub operations including listing repositories, reading/writing files, creating branches and pull requests.");
     ("auth", object [("type", str "none")]);
     ("api",
      object
        [("type", str "openapi");
         ("url",
          JStr (lit "https://" ++ template host ++ lit "/openapi.json"))]);
     ("logo_url",
      str "https://github.githubassets.com/images/modules/logos_page/GitHub-Mark.png");
     ("contact_email", str "support@example.com");
     ("legal_info_url", str "https://example.com/legal")].

(** What GET /sse writes when the connection opens: the three headers and
    the first chunk.  (The keep-alive comments that follow every 30000 ms
    until the client closes are outside this model.) *)
Record SseOpening : Type := {
  sse_headers : list (string * string);
  sse_first_chunk : jsstring
}.

(** ** The handlers *)

Section Gateway.

Context {World : Type}.
Variable octokit : Octokit World.

(** Programs that call the upstream and may throw. *)
Definition M (A : Type) : Type := World -> outcome A * World.

Definition ret {A} (a : A) : M A := fun w => (Normal a, w).

Definition throw {A} (message : jsstring) : M A := fun w => (Throw message, w).

Definition bind {A B} (m : M A) (k : A -> M B) : M B :=
  fun w =>
    match m w with
    | (Normal a, w') => k a w'
    | (Throw e, w') => (Throw e, w')
    end.

(** [try { m } catch (error) { h error.message }] *)
Definition try_catch {A} (m : M A) (h : jsstring -> M A) : M A :=
  fun w =>
    match m w with
    | (Normal a, w') => (Normal a, w')
    | (Throw e, w') => h e w'
    end.

Definition lift {A} (o : outcome A) : M A := fun w => (o, w).

Notation "x <- m ;; k" := (bind m (fun x => k))
  (at level 61, m at next level, right associativity).

(** [args.name]: reading a property of [undefined] is a [TypeError]. *)
Definition arg (args : option Arguments) (name : string)
    (field : Arguments -> option jsstring) : M (option jsstring) :=
  match args with
  | Some a => ret (field a)
  | None =>
      throw (lit "Cannot read properties of undefined (reading '"
               ++ lit name ++ lit "')")
  end.

(** [const authenticate = (req, res, next) => { next(); }] *)
Definition authenticate {A} (next : M A) : M A := next.

(** GET /repos *)
Definition get_repos (query : ReposQuery) : M Response :=
  authenticate
    (try_catch
       (let visibility := or_default (q_visibility query) (lit "all") in
        repos <- repos_listForAuthenticatedUser octokit
                   {| lp_visibility := visibility;
                      lp_sort := lit "updated";
                      lp_per_page := 100 |} ;;
        ret (res_json 200 (JArr (map repository_summary repos))))
       (fun message => ret (res_json 500 (error_body message)))).

(** GET /repos/:owner/:repo/contents/* *)
Definition get_contents (req : GetContentsReq) : M Response :=
  authenticate
    (try_catch
       (let owner := gc_owner req in
        let repo := gc_repo req in
        let path := gc_path req in
        let branch := gc_branch req in
        file <- repos_getContent octokit
                  {| cp_owner := Some owner; cp_repo := Some repo;
                     cp_path := Some path; cp_ref := branch |} ;;
        match file with
        | Directory _ =>
            ret (res_json 400 (error_body (lit "Path is a directory")))
        | File data =>
            buf <- lift (Buffer_from_base64 (fd_content data)) ;;
            ret (res_json 200
                   (js_object
                      [("content", Some (JStr (utf8_decode buf)));
                       ("sha", Some (fd_sha data));
                       ("size", Some (fd_size data));
                       ("path", Some (fd_path data))]))
        end)
       (fun message => ret (res_json 500 (error_body message)))).

(** PUT /repos/:owner/:repo/contents/* *)
Definition put_contents (req : PutContentsReq) : M Response :=
  authenticate
    (try_catch
       (let owner := pc_owner req in
        let repo := pc_repo req in
        let path := pc_path req in
        let content := pc_content req in
        let message := pc_message req in
        let branch := pc_branch req in
        sha <- try_catch
                 (existing <- repos_getContent octokit
                                {| cp_owner := Some owner; cp_repo := Some repo;
                                   cp_path := Some path; cp_ref := branch |} ;;
                  ret (data_sha existing))
                 (fun _ => ret None) ;;
        buf <- lift (Buffer_from content) ;;
        response <- repos_createOrUpdateFileContents octokit
                      {| wp_owner := Some owner; wp_repo := Some repo;
                         wp_path := Some path; wp_message := message;
                         wp_content := base64_encode buf;
                         wp_branch := branch; wp_sha := sha |} ;;
        ret (res_json 200
               (js_object
                  [("success", Some (JBool true));
                   ("commit", Some (wd_commit_sha response));
                   ("content", Some (wd_content response))])))
       (fun message => ret (res_json 500 (error_body message)))).

(** POST /repos/:owner/:repo/branches *)
Definition post_branches (req : PostBranchesReq) : M Response :=
  authenticate
    (try_catch
       (let owner := pb_owner req in
        let repo := pb_repo req in
        let branch := pb_branch req in
        let from_branch := pb_from_branch req in
        repoData <- repos_get octokit
                      {| rp_owner := Some owner; rp_repo := Some repo |} ;;
        let fromBranch := or_default from_branch (rd_default_branch repoData) in
        ref <- git_getRef octokit
                 {| gr_owner := Some owner; gr_repo := Some repo;
                    gr_ref := lit "heads/" ++ fromBranch |} ;;
        newBranch <- git_createRef octokit
                       {| cr_owner := Some owner; cr_repo := Some repo;
                          cr_ref := lit "refs/heads/" ++ template branch;
                          cr_sha := ref_object_sha ref |} ;;
        ret (res_json 200
               (js_object
                  [("success", Some (JBool true));
                   ("branch", js_string branch);
                   ("sha", Some (ref_object_sha newBranch))])))
       (fun message => ret (res_json 500 (error_body message)))).

(** POST /repos/:owner/:repo/pulls *)
Definition post_pulls (req : PostPullsReq) : M Response :=
  authenticate
    (try_catch
       (let owner := pp_owner req in
        let repo := pp_repo req in
        let title := pp_title req in
        let body := pp_body req in
        let head := pp_head req in
        let base := pp_base req in
        pr <- pulls_create octokit
                {| pl_owner := Some owner; pl_repo := Some repo;
                   pl_title := title; pl_body := or_default body (lit EmptyString);
                   pl_head := head; pl_base := base |} ;;
        ret (res_json 200
               (js_object
                  [("success", Some (JBool true));
                   ("number", Some (pd_number pr));
                   ("url", Some (pd_html_url pr));
                   ("state", Some (pd_state pr))])))
       (fun message => ret (res_json 500 (error_body message)))).

(** GET /metadata *)
Definition get_metadata : M Response :=
  authenticate (ret (res_json 200 http_metadata)).

(** GET /.well-known/ai-plugin.json *)
Definition get_plugin_manifest (host : option jsstring) : M Response :=
  ret (res_json 200 (plugin_manifest host)).

(** GET /sse *)
Definition get_sse : M SseOpening :=
  authenticate
    (ret {| sse_headers :=
              [("Content-Type", "text/event-stream");
               ("Cache-Control", "no-cache");
               ("Connection", "keep-alive")];
            sse_first_chunk :=
              lit "data: "
                ++ JSON_stringify
                     (object [("type", str "metadata");
                              ("metadata", sse_metadata)])
                ++ [10; 10] |}).

(** POST /execute: the [switch (tool)] with its five cases and the default,
    inside the outer [try]. *)
Definition post_execute (req : ExecuteBody) : M Response :=
  authenticate
    (let tool := tool req in
     let args := arguments req in
     try_catch
       (result <-
          (if is_tool tool "list_repositories" then
             visibility <- arg args "visibility" a_visibility ;;
             repos <- repos_listForAuthenticatedUser octokit
                        {| lp_visibility := or_default visibility (lit "all");
                           lp_sort := lit "updated";
                           lp_per_page := 100 |} ;;
             ret (JArr (map repository_summary repos))
           else if is_tool tool "get_file" then
             try_catch
               (owner <- arg args "owner" a_owner ;;
                repo <- arg args "repo" a_repo ;;
                path <- arg args "path" a_path ;;
                branch <- arg args "branch" a_branch ;;
                file <- repos_getContent octokit
                          {| cp_owner := owner; cp_repo := repo;
                             cp_path := path; cp_ref := branch |} ;;
                match file with
                | Directory _ =>
                    ret (error_body (lit "Path is a directory, not a file"))
                | File data =>
                    buf <- lift (Buffer_from_base64 (fd_content data)) ;;
                    ret (js_object
                           [("content", Some (JStr (utf8_decode buf)));
                            ("sha", Some (fd_sha data));
                            ("size", Some (fd_size data));
                            ("path", Some (fd_path data))])
                end)
               (fun message => ret (error_body message))
           else if is_tool tool "create_or_update_file" then
             try_catch
               (sha <- try_catch
                         (owner <- arg args "owner" a_owner ;;
                          repo <- arg args "repo" a_repo ;;
                          path <- arg args "path" a_path ;;
                          branch <- arg args "branch" a_branch ;;
                          existing <- repos_getContent octokit
                                        {| cp_owner := owner; cp_repo := repo;
                                           cp_path := path; cp_ref := branch |} ;;
                          ret (data_sha existing))
                         (fun _ => ret None) ;;
                owner <- arg args "owner" a_owner ;;
                repo <- arg args "repo" a_repo ;;
                path <- arg args "path" a_path ;;
                message <- arg args "message" a_message ;;
                content <- arg args "content" a_content ;;
                buf <- lift (Buffer_from content) ;;
                branch <- arg args "branch" a_branch ;;
                response <- repos_createOrUpdateFileContents octokit
                              {| wp_owner := owner; wp_repo := repo;
                                 wp_path := path; wp_message := message;
                                 wp_content := base64_encode buf;
                                 wp_branch := branch; wp_sha := sha |} ;;
                ret (js_object
                       [("success", Some (JBool true));
                        ("commit", Some (wd_commit_sha response));
                        ("content", Some (wd_content response))]))
               (fun message => ret (error_body message))
           else if is_tool tool "create_branch" then
             try_catch
               (owner <- arg args "owner" a_owner ;;
                repo <- arg args "repo" a_repo ;;
                repo_ <- repos_get octokit
                           {| rp_owner := owner; rp_repo := repo |} ;;
                from_branch <- arg args "from_branch" a_from_branch ;;
                let fromBranch :=
                  or_default from_branch (rd_default_branch repo_) in
                owner <- arg args "owner" a_owner ;;
                repo <- arg args "repo" a_repo ;;
                ref <- git_getRef octokit
                         {| gr_owner := owner; gr_repo := repo;
                            gr_ref := lit "heads/" ++ fromBranch |} ;;
                owner <- arg args "owner" a_owner ;;
                repo <- arg args "repo" a_repo ;;
                branch <- arg args "branch" a_branch ;;
                newBranch <- git_createRef octokit
                               {| cr_owner := owner; cr_repo := repo;
                                  cr_ref := lit "refs/heads/" ++ template branch;
                                  cr_sha := ref_object_sha ref |} ;;
                branch <- arg args "branch" a_branch ;;
                ret (js_object
                       [("success", Some (JBool true));
                        ("branch", js_string branch);
                        ("sha", Some (ref_object_sha newBranch))]))
               (fun message => ret (error_body message))
           else if is_tool tool "create_pull_request" then
             try_catch
               (owner <- arg args "owner" a_owner ;;
                repo <- arg args "repo" a_repo ;;
                title <- arg args "title" a_title ;;
                body <- arg args "body" a_body ;;
                head <- arg args "head" a_head ;;
                base <- arg args "base" a_base ;;
                pr <- pulls_create octokit
                        {| pl_owner := owner; pl_repo := repo;
                           pl_title := title;
                           pl_body := or_default body (lit EmptyString);
                           pl_head := head; pl_base := base |} ;;
                ret (js_object
                       [("success", Some (JBool true));
                        ("number", Some (pd_number pr));
                        ("url", Some (pd_html_url pr));
                        ("state", Some (pd_state pr))]))
               (fun message => ret (error_body message))
           else
             ret (error_body (lit "Unknown tool: " ++ template tool))) ;;
        ret (res_json 200 (js_object [("result", Some result)])))
       (fun message => ret (res_json 500 (error_body message)))).

End Gateway.

(** ** The two front-ends side by side

    A request of the REST adapter, its routing, and the tool invocation that
    carries the same operation and arguments. *)

Inductive RestRequest : Type :=
| GetRepos (query : ReposQuery)
| GetContents (req : GetContentsReq)
| PutContents (req : PutContentsReq)
| PostBranches (req : PostBranchesReq)
| PostPulls (req : PostPullsReq).

Definition rest {World} (octokit : Octokit World) (r : RestRequest)
    : World -> outcome Response * World :=
  match r with
  | GetRepos query => get_repos octokit query
  | GetContents req => get_contents octokit req
  | PutContents req => put_contents octokit req
  | PostBranches req => post_branches octokit req
  | PostPulls req => post_pulls octokit req
  end.

Definition no_arguments : Arguments :=
  {| a_visibility := None; a_owner := None; a_repo := None; a_path := None;
     a_branch := None; a_content := None; a_message := None;
     a_from_branch := None; a_title := None; a_body := None; a_head := None;
     a_base := None |}.

Definition invocation (name : string) (args : Arguments) : ExecuteBody :=
  {| tool := Some (lit name); arguments := Some args |}.

Definition equivalent_invocation (r : RestRequest) : ExecuteBody :=
  match r with
  | GetRepos query =>
      invocation "list_repositories"
        {| a_visibility := q_visibility query;
           a_owner := None; a_repo := None; a_path := None; a_branch := None;
           a_content := None; a_message := None; a_from_branch := None;
           a_title := None; a_body := None; a_head := None; a_base := None |}
  | GetContents req =>
      invocation "get_file"
        {| a_visibility := None;
           a_owner := Some (gc_owner req); a_repo := Some (gc_repo req);
           a_path := Some (gc_path req); a_branch := gc_branch req;
           a_content := None; a_message := None; a_from_branch := None;
           a_title := None; a_body := None; a_head := None; a_base := None |}
  | PutContents req =>
      invocation "create_or_update_file"
        {| a_visibility := None;
           a_owner := Some (pc_owner req); a_repo := Some (pc_repo req);
           a_path := Some (pc_path req); a_branch := pc_branch req;
           a_content := pc_content req; a_message := pc_message req;
           a_from_branch := None;
           a_title := None; a_body := None; a_head := None; a_base := None |}
  | PostBranches req =>
      invocation "create_branch"
        {| a_visibility := None;
           a_owner := Some (pb_owner req); a_repo := Some (pb_repo req);
           a_path := None; a_branch := pb_branch req;
           a_content := None; a_message := None;
           a_from_branch := pb_from_branch req;
           a_title := None; a_body := None; a_head := None; a_base := None |}
  | PostPulls req =>
      invocation "create_pull_request"
        {| a_visibility := None;
           a_owner := Some (pp_owner req); a_repo := Some (pp_repo req);
           a_path := None; a_branch := None;
           a_content := None; a_message := None; a_from_branch := None;
           a_title := pp_title req; a_body := pp_body req;
           a_head := pp_head req; a_base := pp_base req |}
  end.

(** The names of the dispatch table. *)
Definition known_tools : list jsstring :=
  [lit "list_repositories"; lit "get_file"; lit "create_or_update_file";
   lit "create_branch"; lit "create_pull_request"].

(** The JSON text of a response body. *)
Definition json_text (r : Response) : jsstring := JSON_stringify (body r).

(** The source of a new branch, in the words of the tool's contract: the
    explicit [from_branch] when one is supplied, else the default branch. *)
Inductive branch_source (default : jsstring)
    : option jsstring -> jsstring -> Prop :=
| source_explicit : forall u s, branch_source default (Some (u :: s)) (u :: s)
| source_default : branch_source default None default.

(** ** A small upstream for examples

    An in-memory hosting service with one repository: files by path (base64
    text, the revision token of a file is derived from its text), refs by
    name, and a switch for the credential. *)

Module Fixture.

Record Host : Type := {
  credential_ok : bool;
  files : list (jsstring * string);
  refs : list (jsstring * jsstring);
  pulls : Z
}.

Definition token_of (text : string) : json := JStr (lit "sha-" ++ lit text).

Fixpoint lookup {A} (k : jsstring) (l : list (jsstring * A)) : option A :=
  match l with
  | [] => None
  | (k', v) :: rest => if jsstring_eqb k k' then Some v else lookup k rest
  end.

Definition json_eqb_string (a : option json) (b : json) : bool :=
  match a, b with
  | Some (JStr x), JStr y => jsstring_eqb x y
  | _, _ => false
  end.

Definition the_repository : Repository :=
  {| r_name := str "demo";
     r_full_name := str "octo/demo";
     r_owner_login := str "octo";
     r_private := JBool false;
     r_description := JNull;
     r_html_url := str "https://github.com/octo/demo";
     r_default_branch := str "main" |}.

Definition guarded {A} (h : Host) (k : outcome A * Host) : outcome A * Host :=
  if credential_ok h then k else (Throw (lit "Bad credentials"), h).

Definition client : Octokit Host :=
  {| repos_listForAuthenticatedUser := fun _ h =>
       guarded h (Normal [the_repository], h);
     repos_getContent := fun p h =>
       guarded h
         (match cp_path p with
          | Some path =>
              if jsstring_eqb path (lit "src") then
                (Normal (Directory [str "index.js"]), h)
              else
                match lookup path (files h) with
                | Some text =>
                    (Normal (File {| fd_content := Some text;
                                     fd_sha := token_of text;
                                     fd_size := JNum 0;
                                     fd_path := JStr path |}), h)
                | None => (Throw (lit "Not Found"), h)
                end
          | None => (Throw (lit "Not Found"), h)
          end);
     repos_createOrUpdateFileContents := fun p h =>
       guarded h
         (match wp_path p with
          | Some path =>
              let accepted :=
                match lookup path (files h) with
                | Some text => json_eqb_string (wp_sha p) (token_of text)
                | None => match wp_sha p with None => true | Some _ => false end
                end in
              if accepted then
                (Normal {| wd_commit_sha := str "c0ffee";
                           wd_content :=
                             object [("path", JStr path);
                                     ("sha", token_of (wp_content p))] |},
                 {| credential_ok := credential_ok h;
                    files := (path, wp_content p) :: files h;
                    refs := refs h;
                    pulls := pulls h |})
              else (Throw (lit "sha does not match"), h)
          | None => (Throw (lit "Not Found"), h)
          end);
     repos_get := fun _ h =>
       guarded h (Normal {| rd_default_branch := lit "main" |}, h);
     git_getRef := fun p h =>
       guarded h
         (match lookup (lit "refs/" ++ gr_ref p) (refs h) with
          | Some commit => (Normal {| ref_object_sha := JStr commit |}, h)
          | None => (Throw (lit "Not Found"), h)
          end);
     git_createRef := fun p h =>
       guarded h
         (match lookup (cr_ref p) (refs h), cr_sha p with
          | None, JStr commit =>
              (Normal {| ref_object_sha := JStr commit |},
               {| credential_ok := credential_ok h;
                  files := files h;
                  refs := (cr_ref p, commit) :: refs h;
                  pulls := pulls h |})
          | _, _ => (Throw (lit "Reference already exists"), h)
          end);
     pulls_create := fun p h =>
       guarded h
         (Normal {| pd_number := JNum (pulls h + 1);
                    pd_html_url := str "https://github.com/octo/demo/pull/1";
                    pd_state := str "open" |},
          {| credential_ok := credential_ok h;
             files := files h;
             refs := refs h;
             pulls := (pulls h + 1)%Z |}) |}.

(** One file ("hello", as the service stores it, with a line break after
    the base64 text) and the branch [main]. *)
Definition host : Host :=
  {| credential_ok := true;
     files := [(lit "README.md", String.append "aGVsbG8=" (String (ascii_of_N 10) EmptyString))];
     refs := [(lit "refs/heads/main", lit "abc123")];
     pulls := 0 |}.

Definition locked_out : Host :=
  {| credential_ok := false; files := []; refs := []; pulls := 0 |}.

End Fixture.


(** A Unicode scalar value: a code point that is not a surrogate. *)
Definition scalar_value (c : N) : Prop :=
  (c < 0xD800 \/ 0xDFFF < c) /\ c < 0x110000.

(** The situations in which the adapters are known to differ: the path of a
    file read is a directory, or the upstream rejects the listing. *)
Definition path_is_directory {World} (octokit : Octokit World)
    (r : RestRequest) (w : World) : Prop :=
  match r with
  | GetContents req =>
      exists entries w',
        repos_getContent octokit
          {| cp_owner := Some (gc_owner req); cp_repo := Some (gc_repo req);
             cp_path := Some (gc_path req); cp_ref := gc_branch req |} w
        = (Normal (Directory entries), w')
  | _ => False
  end.

Definition listing_rejected {World} (octokit : Octokit World)
    (r : RestRequest) (w : World) : Prop :=
  match r with
  | GetRepos query =>
      exists m w',
        repos_listForAuthenticatedUser octokit
          {| lp_visibility := or_default (q_visibility query) (lit "all");
             lp_sort := lit "updated"; lp_per_page := 100 |} w
        = (Throw m, w')
  | _ => False
  end.

(** Requests used in the examples. *)
Definition read_directory : GetContentsReq :=
  {| gc_owner := lit "octo"; gc_repo := lit "demo"; gc_path := lit "src";
     gc_branch := None |}.

Definition read_readme : GetContentsReq :=
  {| gc_owner := lit "octo"; gc_repo := lit "demo"; gc_path := lit "README.md";
     gc_branch := None |}.

Definition read_missing : GetContentsReq :=
  {| gc_owner := lit "octo"; gc_repo := lit "demo"; gc_path := lit "missing.txt";
     gc_branch := None |}.

Definition write_readme : PutContentsReq :=
  {| pc_owner := lit "octo"; pc_repo := lit "demo"; pc_path := lit "README.md";
     pc_content := Some (lit "hello"); pc_message := Some (lit "update");
     pc_branch := None |}.

Definition write_new_file : PutContentsReq :=
  {| pc_owner := lit "octo"; pc_repo := lit "demo"; pc_path := lit "notes.txt";
     pc_content := Some (lit "hello"); pc_message := Some (lit "create");
     pc_branch := None |}.

Definition branch_from_default : PostBranchesReq :=
  {| pb_owner := lit "octo"; pb_repo := lit "demo";
     pb_branch := Some (lit "dev"); pb_from_branch := None |}.

(** The answers to a finished write: [respond_rest] is the tail of the PUT
    handler, [respond_tool] the tail of [case 'create_or_update_file']
    followed by [res.json({ result })]. *)
Definition written (response : WriteData) : json :=
  object [("success", JBool true);
          ("commit", wd_commit_sha response);
          ("content", wd_content response)].

Definition respond_rest (o : outcome WriteData) : Response :=
  match o with
  | Normal response => res_json 200 (written response)
  | Throw m => res_json 500 (object [("error", JStr m)])
  end.

Definition respond_tool (o : outcome WriteData) : Response :=
  match o with
  | Normal response => res_json 200 (object [("result", written response)])
  | Throw m => res_json 200 (object [("result", object [("error", JStr m)])])
  end.

(** The visibility filter, in the words of the tool's contract: the given
    value, ["all"] when none is given. *)
Inductive visibility_filter : option jsstring -> jsstring -> Prop :=
| filter_given : forall u s, visibility_filter (Some (u :: s)) (u :: s)
| filter_absent : visibility_filter None (lit "all").

(** The seven fields of a repository summary. *)
Definition summary_fields : list jsstring :=
  [lit "name"; lit "full_name"; lit "owner"; lit "private";
   lit "description"; lit "url"; lit "default_branch"].

Definition field_names (v : json) : list jsstring :=
  match v with
  | JObj fs => map fst fs
  | _ => []
  end.

(** Parts of a tool descriptor. *)
Definition tool_name (t : json) : option json := get_prop "name" t.

Definition tool_description (t : json) : option json := get_prop "description" t.

Definition tool_schema (t : json) : option json := get_prop "inputSchema" t.

Definition tool_required (t : json) : option json :=
  match tool_schema t with
  | Some schema => get_prop "required" schema
  | None => None
  end.

(** Name, type and enumeration of every declared argument. *)
Definition tool_arguments (t : json)
    : list (jsstring * option json * option json) :=
  match tool_schema t with
  | Some schema =>
      match get_prop "properties" schema with
      | Some (JObj fs) =>
          map (fun kv => (fst kv, get_prop "type" (snd kv),
                          get_prop "enum" (snd kv))) fs
      | _ => []
      end
  | None => []
  end.

(** An [arguments] object with one argument replaced. *)
Definition with_visibility (v : option jsstring) (a : Arguments) : Arguments :=
  {| a_visibility := v; a_owner := a_owner a; a_repo := a_repo a;
     a_path := a_path a; a_branch := a_branch a; a_content := a_content a;
     a_message := a_message a; a_from_branch := a_from_branch a;
     a_title := a_title a; a_body := a_body a; a_head := a_head a;
     a_base := a_base a |}.

Definition with_from_branch (v : option jsstring) (a : Arguments) : Arguments :=
  {| a_visibility := a_visibility a; a_owner := a_owner a; a_repo := a_repo a;
     a_path := a_path a; a_branch := a_branch a; a_content := a_content a;
     a_message := a_message a; a_from_branch := v;
     a_title := a_title a; a_body := a_body a; a_head := a_head a;
     a_base := a_base a |}.

Definition with_body (v : option jsstring) (a : Arguments) : Arguments :=
  {| a_visibility := a_visibility a; a_owner := a_owner a; a_repo := a_repo a;
     a_path := a_path a; a_branch := a_branch a; a_content := a_content a;
     a_message := a_message a; a_from_branch := a_from_branch a;
     a_title := a_title a; a_body := v; a_head := a_head a;
     a_base := a_base a |}.

(** What holds of the decoder between two bytes: the partial code point can
    only be completed to a scalar value. *)
Definition decoder_invariant (st : utf8_state) : Prop :=
  bytes_needed st = 0
  \/ (0x80 <= lower_boundary st /\ upper_boundary st <= 0xBF
      /\ ((bytes_needed st = 1 /\ code_point st < 0x4400
           /\ (code_point st < 0x360 \/ 0x37F < code_point st))
          \/ (bytes_needed st = 2 /\ code_point st < 0x110
              /\ (code_point st = 13 -> upper_boundary st <= 0x9F))
          \/ (bytes_needed st = 3 /\ code_point st <= 4
              /\ (code_point st = 0 -> 0x90 <= lower_boundary st)
              /\ (code_point st = 4 -> upper_boundary st <= 0x8F)))).

(** A run of code units that is well formed on its own. *)
Definition closed (chunk : jsstring) : Prop :=
  forall rest, well_formed (chunk ++ rest) = well_formed rest.

(** ** Further definitions used by the properties of the remaining code *)

(** The two error answers: of the REST routes and of POST /execute. *)
Definition rest_error (m : jsstring) : Response :=
  res_json 500 (object [("error", JStr m)]).

Definition tool_answer (result : json) : Response :=
  res_json 200 (object [("result", result)]).

Definition tool_error (m : jsstring) : Response :=
  tool_answer (object [("error", JStr m)]).

(** [s.toWellFormed()]: every unpaired surrogate replaced by U+FFFD. *)
Fixpoint to_well_formed (s : jsstring) : jsstring :=
  match s with
  | [] => []
  | u :: rest =>
      if is_high_surrogate u then
        match rest with
        | v :: rest' =>
            if is_low_surrogate v then u :: v :: to_well_formed rest'
            else 0xFFFD :: to_well_formed rest
        | [] => [0xFFFD]
        end
      else if is_low_surrogate u then 0xFFFD :: to_well_formed rest
      else u :: to_well_formed rest
  end.

(** White space inside base64 text: space, tab, line feed, carriage
    return. *)
Definition is_whitespace (c : ascii) : bool :=
  let x := N_of_ascii c in
  (x =? 32) || (x =? 9) || (x =? 10) || (x =? 13).

Fixpoint strip_whitespace (s : string) : string :=
  match s with
  | EmptyString => EmptyString
  | String c rest =>
      if is_whitespace c then strip_whitespace rest
      else String c (strip_whitespace rest)
  end.

(** A character of canonical base64 text. *)
Definition is_base64_char (c : ascii) : bool :=
  match unbase64 c with
  | Some _ => negb ((N_of_ascii c =? 45) || (N_of_ascii c =? 95))
  | None => N_of_ascii c =? 61
  end.

Fixpoint string_forallb (p : ascii -> bool) (s : string) : bool :=
  match s with
  | EmptyString => true
  | String c rest => p c && string_forallb p rest
  end.

(** [args[k]] for the twelve argument names the handlers read. *)
Definition argument_named (k : jsstring) (a : Arguments) : option jsstring :=
  if jsstring_eqb k (lit "visibility") then a_visibility a
  else if jsstring_eqb k (lit "owner") then a_owner a
  else if jsstring_eqb k (lit "repo") then a_repo a
  else if jsstring_eqb k (lit "path") then a_path a
  else if jsstring_eqb k (lit "branch") then a_branch a
  else if jsstring_eqb k (lit "content") then a_content a
  else if jsstring_eqb k (lit "message") then a_message a
  else if jsstring_eqb k (lit "from_branch") then a_from_branch a
  else if jsstring_eqb k (lit "title") then a_title a
  else if jsstring_eqb k (lit "body") then a_body a
  else if jsstring_eqb k (lit "head") then a_head a
  else if jsstring_eqb k (lit "base") then a_base a
  else None.

(** The names a tool descriptor declares in [inputSchema.properties]. *)
Definition declared_arguments (t : json) : list jsstring :=
  map (fun p => fst (fst p)) (tool_arguments t).

(** ** Start-up

    The top level of the module: the environment is read, five lines are
    logged, and the process exits with code 1 unless [GITHUB_TOKEN] is set;
    otherwise the client is built with the token and the server listens.
    [process.env] maps names to strings; an argument of [console.log] is kept
    as a value. *)

Definition Env : Type := list (jsstring * jsstring).

Fixpoint env_get (k : jsstring) (env : Env) : option jsstring :=
  match env with
  | [] => None
  | (k', v) :: rest => if jsstring_eqb k k' then Some v else env_get k rest
  end.

Fixpoint starts_with (prefix s : jsstring) : bool :=
  match prefix, s with
  | [], _ => true
  | _ :: _, [] => false
  | a :: prefix', b :: s' => (a =? b) && starts_with prefix' s'
  end.

(** [s.includes(sub)] *)
Fixpoint includes (s sub : jsstring) : bool :=
  starts_with sub s
  || match s with
     | [] => false
     | _ :: s' => includes s' sub
     end.

(** [!!x] for a string or [undefined]. *)
Definition truthy (x : option jsstring) : bool :=
  match x with
  | Some (_ :: _) => true
  | _ => false
  end.

(** [x?.length || 0] *)
Definition length_or_zero (x : option jsstring) : N :=
  match x with
  | Some s => N.of_nat (List.length s)
  | None => 0
  end.

Inductive LogArg : Type :=
| LogString (s : jsstring)
| LogBoolean (b : bool)
| LogNumber (n : N)
| LogStrings (l : list jsstring).

(** [process.env.PORT || 3000] *)
Inductive Port : Type :=
| EnvPort (s : jsstring)
| DefaultPort (n : N).

Definition port_of (env : Env) : Port :=
  match env_get (lit "PORT") env with
  | Some (u :: s) => EnvPort (u :: s)
  | _ => DefaultPort 3000
  end.

(** [`${PORT}`] *)
Definition port_text (p : Port) : jsstring :=
  match p with
  | EnvPort s => s
  | DefaultPort n => number_to_string (Z.of_N n)
  end.

(** How start-up ends: [process.exit(code)], or [app.listen(PORT)] with the
    client built by [new Octokit({ auth })]. *)
Inductive Boot : Type :=
| Exited (code : N)
| Listening (port : Port) (auth : jsstring).

Record Startup : Type := {
  console_log : list (list LogArg);
  console_error : list (list LogArg);
  boot : Boot
}.

Definition environment_check (env : Env) : list (list LogArg) :=
  let GITHUB_TOKEN := env_get (lit "GITHUB_TOKEN") env in
  let MCP_API_KEY := env_get (lit "MCP_API_KEY") env in
  [ [LogString (lit "Environment check:")];
    [LogString (lit "- GITHUB_TOKEN exists:"); LogBoolean (truthy GITHUB_TOKEN)];
    [LogString (lit "- GITHUB_TOKEN length:");
     LogNumber (length_or_zero GITHUB_TOKEN)];
    [LogString (lit "- MCP_API_KEY exists:"); LogBoolean (truthy MCP_API_KEY)];
    [LogString (lit "- All env vars:");
     LogStrings
       (filter (fun k => includes k (lit "GITHUB") || includes k (lit "MCP"))
          (map fst env))] ].

Definition startup (env : Env) : Startup :=
  let PORT := port_of env in
  match env_get (lit "GITHUB_TOKEN") env with
  | Some (u :: t) =>
      {| console_log :=
           environment_check env
             ++ [ [LogString (lit "GitHub MCP Server running on port "
                                ++ port_text PORT)];
                  [LogString (lit "Health check: http://localhost:"
                                ++ port_text PORT ++ lit "/health")] ];
         console_error := [];
         boot := Listening PORT (u :: t) |}
  | _ =>
      {| console_log := environment_check env;
         console_error :=
           [ [LogString
                (lit "ERROR: GITHUB_TOKEN environment variable is required")] ];
         boot := Exited 1 |}
  end.

(** What an observer of the process sees: the two logs, and whether and
    where the server listens. *)
Definition observable (s : Startup) : list (list LogArg) * list (list LogArg)
                                     * option Port :=
  (console_log s, console_error s,
   match boot s with
   | Exited _ => None
   | Listening port _ => Some port
   end).

(** ** The event stream after it is opened

    GET /sse writes the discovery event, arms an interval that writes the
    keep-alive comment each time it fires, and clears the interval when the
    request closes.  A cleared interval does not fire. *)

Record SseConnection : Type := {
  chunks : list jsstring;
  keepAlive : bool
}.

Inductive SseEvent : Type :=
| IntervalFired
| RequestClosed.

Definition keepalive_comment : jsstring := lit ": keepalive" ++ [10; 10].

Definition sse_connect (opening : SseOpening) : SseConnection :=
  {| chunks := [sse_first_chunk opening]; keepAlive := true |}.

Definition sse_on (c : SseConnection) (e : SseEvent) : SseConnection :=
  match e with
  | IntervalFired =>
      if keepAlive c then
        {| chunks := chunks c ++ [keepalive_comment]; keepAlive := true |}
      else c
  | RequestClosed => {| chunks := chunks c; keepAlive := false |}
  end.

Definition sse_run (c : SseConnection) (events : list SseEvent)
    : SseConnection :=
  fold_left sse_on events c.

(** The number of times the interval fires before the request closes. *)
Fixpoint fired_before_close (events : list SseEvent) : nat :=
  match events with
  | [] => 0
  | IntervalFired :: rest => S (fired_before_close rest)
  | RequestClosed :: _ => 0
  end.

(** Environments and arguments used in the examples. *)
Definition example_env (token : string) : Env :=
  [(lit "PATH", lit "/usr/bin"); (lit "GITHUB_TOKEN", lit token);
   (lit "PORT", lit "8080")].

Definition pull_request_arguments : Arguments :=
  {| a_visibility := None; a_owner := Some (lit "octo");
     a_repo := Some (lit "demo"); a_path := None; a_branch := None;
     a_content := None; a_message := None; a_from_branch := None;
     a_title := Some (lit "Add notes"); a_body := None;
     a_head := Some (lit "dev"); a_base := Some (lit "main") |}.

(** The text of the example file as the example upstream stores it. *)
Definition readme_text : string :=
  String.append "aGVsbG8=" (String (ascii_of_N 10) EmptyString).

(** The example upstream with a submodule at [vendor/lib]: an entry
    without [content]. *)
Definition submodule_client : Octokit Fixture.Host :=
  {| repos_listForAuthenticatedUser :=
       repos_listForAuthenticatedUser Fixture.client;
     repos_getContent := fun p h =>
       match cp_path p with
       | Some path =>
           if jsstring_eqb path (lit "vendor/lib") then
             (Normal (File {| fd_content := None;
                              fd_sha := str "5ub";
                              fd_size := JNum 0;
                              fd_path := JStr path |}), h)
           else repos_getContent Fixture.client p h
       | None => repos_getContent Fixture.client p h
       end;
     repos_createOrUpdateFileContents :=
       repos_createOrUpdateFileContents Fixture.client;
     repos_get := repos_get Fixture.client;
     git_getRef := git_getRef Fixture.client;
     git_createRef := git_createRef Fixture.client;
     pulls_create := pulls_create Fixture.client |}.

Definition read_submodule : GetContentsReq :=
  {| gc_owner := lit "octo"; gc_repo := lit "demo";
     gc_path := lit "vendor/lib"; gc_branch := None |}.

(** A write of a string that ends in an unpaired surrogate, and the read of
    the same path. *)
Definition write_unpaired : PutContentsReq :=
  {| pc_owner := lit "octo"; pc_repo := lit "demo"; pc_path := lit "notes.txt";
     pc_content := Some [0x61; 0xD800]; pc_message := Some (lit "create");
     pc_branch := None |}.

Definition read_notes : GetContentsReq :=
  {| gc_owner := lit "octo"; gc_repo := lit "demo"; gc_path := lit "notes.txt";
     gc_branch := None |}.

(** A string without control characters (in particular without a line
    break). *)
Definition printable (s : jsstring) : Prop := Forall (fun u => 32 <= u) s.

(** The descriptor of get_file, and two argument objects that differ in an
    argument it does not declare. *)
Definition get_file_descriptor : json := nth 1 sse_tools JNull.

Definition readme_arguments (content : option jsstring) : Arguments :=
  {| a_visibility := None; a_owner := Some (lit "octo");
     a_repo := Some (lit "demo"); a_path := Some (lit "README.md");
     a_branch := None; a_content := content; a_message := None;
     a_from_branch := None; a_title := None; a_body := None; a_head := None;
     a_base := None |}.

(** * Properties *)

(** ** Arithmetic of the codecs *)

Ltac arith := zify; Z.to_euclidean_division_equations; lia.

Lemma to_N_byte_of_N (n : N) : n < 256 -> Byte.to_N (byte_of_N n) = n.
Proof.
  intros H. unfold byte_of_N. rewrite N.mod_small by exact H.
  destruct (Byte.of_N n) eqn:E.
  - apply Byte.to_of_N; exact E.
  - apply Byte.of_N_None_iff in E. lia.
Qed.

Lemma byte_of_N_to_N (b : byte) : byte_of_N (Byte.to_N b) = b.
Proof.
  unfold byte_of_N. pose proof (Byte.to_N_bounded b).
  rewrite N.mod_small by lia. rewrite Byte.of_to_N. reflexivity.
Qed.

(** Settle one comparison of the goal whose outcome follows from the
    context by linear arithmetic. *)
Ltac settle_test :=
  match goal with
  | |- context [N.leb ?a ?b] =>
      first [ replace (N.leb a b) with true by (symmetry; apply N.leb_le; lia)
            | replace (N.leb a b) with false by (symmetry; apply N.leb_gt; lia) ]
  | |- context [N.ltb ?a ?b] =>
      first [ replace (N.ltb a b) with true by (symmetry; apply N.ltb_lt; lia)
            | replace (N.ltb a b) with false by (symmetry; apply N.ltb_ge; lia) ]
  | |- context [N.eqb ?a ?b] =>
      first [ replace (N.eqb a b) with true by (symmetry; apply N.eqb_eq; lia)
            | replace (N.eqb a b) with false by (symmetry; apply N.eqb_neq; lia) ]
  end.

Ltac settle_tests := repeat (settle_test; cbn [andb orb negb]; cbv iota).

Ltac decoder_steps :=
  cbn [utf8_decode_from app];
  rewrite ?to_N_byte_of_N by lia;
  unfold utf8_step, utf8_lead;
  cbn [bytes_needed code_point lower_boundary upper_boundary utf8_initial].

Lemma utf8_decode_1 (c : N) (rest : list byte) :
  c < 0x80 ->
  utf8_decode_from utf8_initial (byte_of_N c :: rest)
  = [c] ++ utf8_decode_from utf8_initial rest.
Proof.
  intros H. decoder_steps. settle_tests. reflexivity.
Qed.

Lemma utf8_decode_2 (q r : N) (rest : list byte) :
  2 <= q < 32 -> r < 64 ->
  utf8_decode_from utf8_initial
    (byte_of_N (0xC0 + q) :: byte_of_N (0x80 + r) :: rest)
  = units_of_code_point (q * 64 + r) ++ utf8_decode_from utf8_initial rest.
Proof.
  intros Hq Hr. decoder_steps. settle_tests.
  decoder_steps.
  replace ((0xC0 + q) mod 32) with q by arith.
  replace ((0x80 + r) mod 64) with r by arith.
  settle_tests. reflexivity.
Qed.

Lemma utf8_decode_3 (a q r : N) (rest : list byte) :
  a < 16 -> q < 64 -> r < 64 ->
  (a = 0 -> 32 <= q) -> (a = 13 -> q < 32) ->
  utf8_decode_from utf8_initial
    (byte_of_N (0xE0 + a) :: byte_of_N (0x80 + q) :: byte_of_N (0x80 + r) :: rest)
  = units_of_code_point (a * 4096 + q * 64 + r)
      ++ utf8_decode_from utf8_initial rest.
Proof.
  intros Ha Hq Hr H0 H13.
  decoder_steps. settle_tests.
  destruct (N.eq_dec a 0) as [E0 | E0]; [specialize (H0 E0) | clear H0];
    (destruct (N.eq_dec a 13) as [E13 | E13]; [specialize (H13 E13) | clear H13]);
    try lia;
    decoder_steps; settle_tests;
    decoder_steps; settle_tests;
    replace ((0xE0 + a) mod 16) with a by arith;
    replace ((0x80 + q) mod 64) with q by arith;
    replace ((0x80 + r) mod 64) with r by arith;
    replace ((a * 64 + q) * 64 + r) with (a * 4096 + q * 64 + r) by lia;
    reflexivity.
Qed.

Lemma utf8_decode_4 (a p q r : N) (rest : list byte) :
  a < 5 -> p < 64 -> q < 64 -> r < 64 ->
  (a = 0 -> 16 <= p) -> (a = 4 -> p < 16) ->
  utf8_decode_from utf8_initial
    (byte_of_N (0xF0 + a) :: byte_of_N (0x80 + p) :: byte_of_N (0x80 + q)
       :: byte_of_N (0x80 + r) :: rest)
  = units_of_code_point (a * 262144 + p * 4096 + q * 64 + r)
      ++ utf8_decode_from utf8_initial rest.
Proof.
  intros Ha Hp Hq Hr H0 H4.
  decoder_steps. settle_tests.
  destruct (N.eq_dec a 0) as [E0 | E0]; [specialize (H0 E0) | clear H0];
    (destruct (N.eq_dec a 4) as [E4 | E4]; [specialize (H4 E4) | clear H4]);
    try lia;
    decoder_steps; settle_tests;
    decoder_steps; settle_tests;
    decoder_steps; settle_tests;
    replace ((0xF0 + a) mod 8) with a by arith;
    replace ((0x80 + p) mod 64) with p by arith;
    replace ((0x80 + q) mod 64) with q by arith;
    replace ((0x80 + r) mod 64) with r by arith;
    replace (((a * 64 + p) * 64 + q) * 64 + r)
      with (a * 262144 + p * 4096 + q * 64 + r) by lia;
    reflexivity.
Qed.

(** Decoding the UTF-8 form of a scalar value yields its UTF-16 form and
    leaves the decoder in its initial state. *)
Lemma utf8_decode_code_point (c : N) (rest : list byte) :
  scalar_value c ->
  utf8_decode_from utf8_initial (utf8_of_code_point c ++ rest)
  = units_of_code_point c ++ utf8_decode_from utf8_initial rest.
Proof.
  intros [Hs Hc]. unfold utf8_of_code_point.
  destruct (N.ltb_spec c 0x80) as [H1 | H1].
  { cbn [app]. rewrite utf8_decode_1 by exact H1.
    unfold units_of_code_point. settle_tests. reflexivity. }
  destruct (N.ltb_spec c 0x800) as [H2 | H2].
  { cbn [app].
    rewrite (utf8_decode_2 (c / 64) (c mod 64)) by arith.
    f_equal. f_equal. arith. }
  destruct (N.ltb_spec c 0x10000) as [H3 | H3].
  { cbn [app].
    rewrite (utf8_decode_3 (c / 4096) (c / 64 mod 64) (c mod 64)) by arith.
    f_equal. f_equal. arith. }
  cbn [app].
  rewrite (utf8_decode_4 (c / 262144) (c / 4096 mod 64) (c / 64 mod 64) (c mod 64))
    by arith.
  f_equal. f_equal. arith.
Qed.

Lemma high_surrogate_range (u : N) :
  is_high_surrogate u = true <-> 0xD800 <= u <= 0xDBFF.
Proof.
  unfold is_high_surrogate. rewrite andb_true_iff, !N.leb_le. tauto.
Qed.

Lemma low_surrogate_range (u : N) :
  is_low_surrogate u = true <-> 0xDC00 <= u <= 0xDFFF.
Proof.
  unfold is_low_surrogate. rewrite andb_true_iff, !N.leb_le. tauto.
Qed.

Lemma not_high_surrogate (u : N) :
  is_high_surrogate u = false <-> u < 0xD800 \/ 0xDBFF < u.
Proof.
  unfold is_high_surrogate. rewrite andb_false_iff, !N.leb_gt. tauto.
Qed.

Lemma not_low_surrogate (u : N) :
  is_low_surrogate u = false <-> u < 0xDC00 \/ 0xDFFF < u.
Proof.
  unfold is_low_surrogate. rewrite andb_false_iff, !N.leb_gt. tauto.
Qed.

Lemma utf8_round_trip_bounded (n : nat) :
  forall s : jsstring,
    (List.length s <= n)%nat -> well_formed s = true ->
    utf8_decode_from utf8_initial (utf8_encode s) = s.
Proof.
  induction n as [| n IH]; intros s Hlen Hwf.
  - destruct s; [reflexivity | cbn in Hlen; lia].
  - destruct s as [| u rest]; [reflexivity |].
    cbn [well_formed utf8_encode] in *.
    destruct (is_high_surrogate u) eqn:Hu.
    + destruct rest as [| v rest']; [discriminate |].
      apply andb_true_iff in Hwf. destruct Hwf as [Hv Hwf].
      rewrite Hv.
      apply high_surrogate_range in Hu. apply low_surrogate_range in Hv.
      rewrite utf8_decode_code_point by (unfold scalar_value; lia).
      rewrite IH by first [exact Hwf | cbn in Hlen; lia].
      unfold units_of_code_point. settle_tests.
      cbn [app]. f_equal; [arith | f_equal; arith].
    + apply andb_true_iff in Hwf. destruct Hwf as [Hwf Hrest].
      apply andb_true_iff in Hwf. destruct Hwf as [Hlt Hlow].
      apply N.ltb_lt in Hlt. apply negb_true_iff in Hlow.
      rewrite Hlow.
      apply not_high_surrogate in Hu. apply not_low_surrogate in Hlow.
      rewrite utf8_decode_code_point by (unfold scalar_value; lia).
      rewrite IH by first [exact Hrest | cbn in Hlen; lia].
      unfold units_of_code_point. settle_tests. reflexivity.
Qed.

(** [Buffer.from(s).toString('utf-8')] is [s] for a well-formed string. *)
Lemma utf8_round_trip (s : jsstring) :
  well_formed s = true -> utf8_decode (utf8_encode s) = s.
Proof.
  intros H. apply (utf8_round_trip_bounded (List.length s)); [lia | exact H].
Qed.

Lemma below_64 (n : N) : n < 64 -> In n (map N.of_nat (seq 0 64)).
Proof.
  intros H. apply in_map_iff. exists (N.to_nat n). split.
  - apply N2Nat.id.
  - apply in_seq. lia.
Qed.

Lemma unbase64_char (n : N) : n < 64 -> unbase64 (base64_char n) = Some n.
Proof.
  intros H.
  assert (A : forallb
                (fun k => match unbase64 (base64_char k) with
                          | Some v => N.eqb v k
                          | None => false
                          end)
                (map N.of_nat (seq 0 64)) = true) by (vm_compute; reflexivity).
  rewrite forallb_forall in A. specialize (A n (below_64 n H)).
  destruct (unbase64 (base64_char n)); [| discriminate].
  apply N.eqb_eq in A. subst. reflexivity.
Qed.

Lemma base64_round_trip_bounded (n : nat) :
  forall bs : list byte,
    (List.length bs <= n)%nat -> base64_decode (base64_encode bs) = bs.
Proof.
  unfold base64_decode.
  induction n as [| n IH]; intros bs Hlen.
  - destruct bs; [reflexivity | cbn in Hlen; lia].
  - destruct bs as [| a [| b [| c rest]]]; [reflexivity | | |].
    + pose proof (Byte.to_N_bounded a).
      cbn [base64_encode base64_sextets].
      rewrite !unbase64_char by arith.
      cbn. f_equal.
      rewrite <- (byte_of_N_to_N a) at 3. f_equal. arith.
    + pose proof (Byte.to_N_bounded a). pose proof (Byte.to_N_bounded b).
      cbn [base64_encode base64_sextets].
      rewrite !unbase64_char by arith.
      cbn. f_equal; [| f_equal].
      * rewrite <- (byte_of_N_to_N a) at 3. f_equal. arith.
      * rewrite <- (byte_of_N_to_N b) at 3. f_equal. arith.
    + pose proof (Byte.to_N_bounded a). pose proof (Byte.to_N_bounded b).
      pose proof (Byte.to_N_bounded c).
      cbn [base64_encode base64_sextets].
      rewrite !unbase64_char by arith.
      cbn [base64_bytes].
      rewrite IH by (cbn in Hlen; lia).
      f_equal; [| f_equal; [| f_equal]].
      * rewrite <- (byte_of_N_to_N a) at 3. f_equal. arith.
      * rewrite <- (byte_of_N_to_N b) at 3. f_equal. arith.
      * rewrite <- (byte_of_N_to_N c) at 3. f_equal. arith.
Qed.

(** [Buffer.from(buf.toString('base64'), 'base64')] is [buf]. *)
Lemma base64_round_trip (bs : list byte) :
  base64_decode (base64_encode bs) = bs.
Proof.
  apply (base64_round_trip_bounded (List.length bs)). lia.
Qed.

(** *** The decoder yields well-formed strings *)

Lemma closed_nil : closed [].
Proof. intros rest. reflexivity. Qed.

Lemma closed_app (a b : jsstring) : closed a -> closed b -> closed (a ++ b).
Proof.
  intros Ha Hb rest. rewrite <- app_assoc, Ha, Hb. reflexivity.
Qed.

Lemma closed_unit (u : N) :
  u < 0xD800 \/ (0xDFFF < u /\ u < 0x10000) -> closed [u].
Proof.
  intros H rest. cbn [app well_formed].
  unfold is_high_surrogate, is_low_surrogate.
  destruct H as [H | [H H']]; settle_tests; reflexivity.
Qed.

Lemma closed_code_point (c : N) :
  c < 0xD800 \/ (0xDFFF < c /\ c < 0x110000) ->
  closed (units_of_code_point c).
Proof.
  intros H. unfold units_of_code_point.
  destruct (N.ltb_spec c 0x10000) as [Hc | Hc].
  - apply closed_unit. lia.
  - intros rest. cbn [app well_formed].
    unfold is_high_surrogate, is_low_surrogate.
    assert ((c - 0x10000) / 1024 < 1024 /\ (c - 0x10000) mod 1024 < 1024)
      as [H1 H2] by arith.
    set (q := (c - 0x10000) / 1024) in *.
    set (r := (c - 0x10000) mod 1024) in *.
    clearbody q r.
    settle_tests. reflexivity.
Qed.

Lemma utf8_lead_invariant (x : N) :
  x < 256 ->
  closed (fst (utf8_lead x)) /\ decoder_invariant (snd (utf8_lead x)).
Proof.
  intros Hx. unfold utf8_lead.
  destruct (N.leb_spec x 0x7F) as [H1 | H1].
  { cbn [fst snd]. split; [apply closed_unit; lia | left; reflexivity]. }
  destruct (N.leb_spec 0xC2 x) as [H2 | H2];
    [destruct (N.leb_spec x 0xDF) as [H3 | H3] |]; cbn [andb].
  { cbn [fst snd]. split; [apply closed_nil |]. right.
    cbn [bytes_needed code_point lower_boundary upper_boundary].
    split; [lia |]. split; [lia |]. left. arith. }
  2:{ destruct (N.leb_spec 0xE0 x); [lia |]. cbn [andb].
      destruct (N.leb_spec 0xF0 x); [lia |]. cbn [andb fst snd].
      split; [apply closed_unit; lia | left; reflexivity]. }
  destruct (N.leb_spec 0xE0 x) as [H4 | H4]; [| lia].
  destruct (N.leb_spec x 0xEF) as [H5 | H5]; cbn [andb].
  { cbn [fst snd]. split; [apply closed_nil |]. right.
    cbn [bytes_needed code_point lower_boundary upper_boundary].
    destruct (N.eqb_spec x 0xE0); destruct (N.eqb_spec x 0xED);
      (split; [lia |]); (split; [lia |]); right; left;
      (split; [reflexivity |]); (split; [arith |]); intros; try lia; arith. }
  destruct (N.leb_spec 0xF0 x) as [H6 | H6]; [| lia].
  destruct (N.leb_spec x 0xF4) as [H7 | H7]; cbn [andb fst snd].
  - split; [apply closed_nil |]. right.
    cbn [bytes_needed code_point lower_boundary upper_boundary].
    destruct (N.eqb_spec x 0xF0); destruct (N.eqb_spec x 0xF4);
      (split; [lia |]); (split; [lia |]); right; right;
      (split; [reflexivity |]); (split; [arith |]);
      split; intros; try lia; arith.
  - split; [apply closed_unit; lia | left; reflexivity].
Qed.

Lemma utf8_step_invariant (st : utf8_state) (x : N) :
  decoder_invariant st -> x < 256 ->
  closed (fst (utf8_step st x)) /\ decoder_invariant (snd (utf8_step st x)).
Proof.
  intros Hst Hx. unfold utf8_step.
  destruct (N.eqb_spec (bytes_needed st) 0) as [H0 | H0].
  { apply utf8_lead_invariant; exact Hx. }
  destruct Hst as [Hst | [Hlo [Hup Hst]]]; [contradiction |].
  destruct (N.leb_spec (lower_boundary st) x) as [H1 | H1];
    [destruct (N.leb_spec x (upper_boundary st)) as [H2 | H2] |];
    cbn [andb].
  2, 3: destruct (utf8_lead_invariant x Hx) as [Hc Hi];
        destruct (utf8_lead x) as [out st']; cbn [fst snd] in *;
        (split; [| exact Hi]);
        apply (closed_app [0xFFFD] out); [apply closed_unit; lia | exact Hc].
  assert (Hm : x mod 64 = x - 0x80) by arith.
  destruct Hst as [[Hn [Hc Hs]] | [[Hn [Hc Hs]] | [Hn [Hc [Hs0 Hs4]]]]];
    rewrite Hn; cbn [N.eqb Pos.eqb fst snd].
  - split; [| left; reflexivity].
    apply closed_code_point. rewrite Hm. lia.
  - split; [apply closed_nil |]. right.
    cbn [bytes_needed code_point lower_boundary upper_boundary].
    rewrite Hm. split; [lia |]. split; [lia |]. left.
    split; [reflexivity |]. split; [lia |].
    destruct (N.eq_dec (code_point st) 13) as [E | E];
      [specialize (Hs E) |]; lia.
  - split; [apply closed_nil |]. right.
    cbn [bytes_needed code_point lower_boundary upper_boundary].
    rewrite Hm. split; [lia |]. split; [lia |]. right. left.
    split; [reflexivity |].
    destruct (N.eq_dec (code_point st) 0) as [E0 | E0];
      [specialize (Hs0 E0) |];
      (destruct (N.eq_dec (code_point st) 4) as [E4 | E4];
       [specialize (Hs4 E4) |]);
      (split; [lia |]); intros; lia.
Qed.

Lemma utf8_decode_from_well_formed (bs : list byte) :
  forall st, decoder_invariant st ->
             well_formed (utf8_decode_from st bs) = true.
Proof.
  induction bs as [| b rest IH]; intros st Hst.
  - cbn [utf8_decode_from].
    destruct (bytes_needed st =? 0); reflexivity.
  - cbn [utf8_decode_from].
    pose proof (Byte.to_N_bounded b) as Hb.
    destruct (utf8_step_invariant st (Byte.to_N b) Hst) as [Hc Hi]; [lia |].
    destruct (utf8_step st (Byte.to_N b)) as [out st']. cbn [fst snd] in *.
    rewrite Hc. apply IH. exact Hi.
Qed.

(** [buf.toString('utf-8')] is a well-formed string, whatever the bytes. *)
Lemma utf8_decode_well_formed (bs : list byte) :
  well_formed (utf8_decode bs) = true.
Proof.
  apply utf8_decode_from_well_formed. left. reflexivity.
Qed.

(** ** Running the handlers *)

Lemma jsstring_eqb_eq (a b : jsstring) : jsstring_eqb a b = true <-> a = b.
Proof.
  unfold jsstring_eqb. destruct (list_eq_dec N.eq_dec a b); split;
    intros; congruence.
Qed.

Lemma jsstring_eqb_neq (a b : jsstring) : jsstring_eqb a b = false <-> a <> b.
Proof.
  unfold jsstring_eqb. destruct (list_eq_dec N.eq_dec a b); split;
    intros; congruence.
Qed.

(** Evaluate the [case] tests on a literal tool name. *)
Ltac dispatch :=
  repeat match goal with
    | |- context [is_tool (Some (lit ?a)) ?b] =>
        let v := eval vm_compute in (is_tool (Some (lit a)) b) in
        change (is_tool (Some (lit a)) b) with v
    end;
  cbv iota.

(** Unfold the monad of the handlers. *)
Ltac run :=
  unfold bind, try_catch, ret, lift, throw, arg, authenticate;
  cbn [tool arguments invocation equivalent_invocation
       a_visibility a_owner a_repo a_path a_branch a_content a_message
       a_from_branch a_title a_body a_head a_base
       q_visibility gc_owner gc_repo gc_path gc_branch
       pc_owner pc_repo pc_path pc_content pc_message pc_branch
       pb_owner pb_repo pb_branch pb_from_branch
       pp_owner pp_repo pp_title pp_body pp_head pp_base
       Buffer_from Buffer_from_base64].

Lemma is_tool_unknown (name : jsstring) (known : string) :
  ~ In name known_tools -> In (lit known) known_tools ->
  is_tool (Some name) known = false.
Proof.
  intros Hn Hk. cbn [is_tool]. apply jsstring_eqb_neq.
  intros E. apply Hn. rewrite E. exact Hk.
Qed.

(** C4. A request to POST /execute whose tool name is none of the five
    known tools is answered with HTTP 200 and the body
    [{result: {error: "Unknown tool: <name>"}}], whatever the arguments and
    the state of the upstream; the JSON text of the body is
    [{"result":{"error":"Unknown tool: <name>"}}]. *)
Theorem execute_unknown_tool :
  forall (World : Type) (octokit : Octokit World) (name : jsstring)
         (args : option Arguments) (w : World),
    ~ In name known_tools ->
    exists response : Response,
      post_execute octokit {| tool := Some name; arguments := args |} w
      = (Normal response, w)
      /\ status response = 200
      /\ body response
         = object
             [("result",
               object [("error", JStr (lit "Unknown tool: " ++ name))])]
      /\ json_text response
         = lit "{" ++ quote (lit "result") ++ lit ":{"
             ++ quote (lit "error") ++ lit ":"
             ++ quote (lit "Unknown tool: " ++ name) ++ lit "}}".
Proof.
  intros World octokit name args w H.
  eexists. split; [| split; [| split]].
  - unfold post_execute. run.
    rewrite !is_tool_unknown by (first [exact H | vm_compute; tauto]).
    reflexivity.
  - reflexivity.
  - reflexivity.
  - unfold json_text, res_json, body, error_body, js_object.
    cbn [defined_props JSON_stringify template].
    change (lit ":{") with (lit ":" ++ lit "{").
    change (lit "}}") with (lit "}" ++ lit "}").
    rewrite <- !app_assoc. reflexivity.
Qed.

Lemma execute_unknown_tool_witness :
  ~ In (lit "not_a_real_tool") known_tools
  /\ exists response : Response,
       post_execute Fixture.client
         {| tool := Some (lit "not_a_real_tool"); arguments := None |}
         Fixture.host
       = (Normal response, Fixture.host)
       /\ status response = 200
       /\ body response
          = object
              [("result",
                object
                  [("error",
                    JStr (lit "Unknown tool: " ++ lit "not_a_real_tool"))])]
       /\ json_text response
          = lit "{" ++ quote (lit "result") ++ lit ":{"
              ++ quote (lit "error") ++ lit ":"
              ++ quote (lit "Unknown tool: " ++ lit "not_a_real_tool")
              ++ lit "}}".
Proof.
  assert (H : ~ In (lit "not_a_real_tool") known_tools).
  { vm_compute. intuition discriminate. }
  split; [exact H |].
  exact (execute_unknown_tool Fixture.Host Fixture.client
           (lit "not_a_real_tool") None Fixture.host H).
Defined.

(** A request without a [tool] field takes the default case as well; the
    template literal prints [undefined]. *)
Lemma execute_missing_tool :
  forall (World : Type) (octokit : Octokit World) (args : option Arguments)
         (w : World),
    post_execute octokit {| tool := None; arguments := args |} w
    = (Normal
         (res_json 200
            (object
               [("result", object [("error", str "Unknown tool: undefined")])])),
       w).
Proof. intros. reflexivity. Qed.

(** Case analysis on every upstream call and codec result of the goal. *)
Ltac upstream_case :=
  match goal with
  | |- context [match ?x with _ => _ end] =>
      lazymatch x with
      | context [match _ with _ => _ end] => fail
      | _ => idtac
      end;
      match type of x with
      | (outcome _ * _)%type => destruct x as [[? | ?] ?] eqn:?
      | outcome _ => destruct x as [? | ?] eqn:?
      | option _ => destruct x as [? |] eqn:?
      | ContentData => destruct x as [? | ?] eqn:?
      end
  end.

Ltac upstream_cases := repeat (upstream_case; cbv beta iota).

(** The four tools whose [case] has its own [try]/[catch] answer with HTTP
    200 and a [{result: ...}] body whatever happens, and so does the default
    case. *)
Lemma execute_inner_catch :
  forall (World : Type) (octokit : Octokit World) (t : option jsstring)
         (args : option Arguments) (w : World),
    is_tool t "list_repositories" = false ->
    exists (result : json) (w' : World),
      post_execute octokit {| tool := t; arguments := args |} w
      = (Normal (res_json 200 (object [("result", result)])), w').
Proof.
  intros World octokit t args w H.
  unfold post_execute. run. rewrite H.
  destruct (is_tool t "get_file");
    [| destruct (is_tool t "create_or_update_file");
       [| destruct (is_tool t "create_branch");
          [| destruct (is_tool t "create_pull_request")]]];
    destruct args as [a |]; run; upstream_cases;
    eexists; eexists; reflexivity.
Qed.

(** When the listing succeeds, [list_repositories] answers with HTTP 200
    as well. *)
Lemma execute_list_repositories_success :
  forall (World : Type) (octokit : Octokit World) (a : Arguments)
         (w w' : World) (repos : list Repository),
    repos_listForAuthenticatedUser octokit
      {| lp_visibility := or_default (a_visibility a) (lit "all");
         lp_sort := lit "updated"; lp_per_page := 100 |} w
    = (Normal repos, w') ->
    post_execute octokit (invocation "list_repositories" a) w
    = (Normal
         (res_json 200
            (object [("result", JArr (map repository_summary repos))])),
       w').
Proof.
  intros World octokit a w w' repos H.
  unfold post_execute. run. dispatch. run. rewrite H. reflexivity.
Qed.

(** C3 (the code departs from the claim at [list_repositories]).  The
    [case 'list_repositories'] of POST /execute has no [try]/[catch] of its
    own: when the upstream rejects the listing with message [m], the outer
    [catch] answers with HTTP 500 and the bare body [{error: m}], not with
    HTTP 200 and [{result: {error: m}}]. *)
Theorem execute_list_repositories_rejection :
  forall (World : Type) (octokit : Octokit World) (a : Arguments)
         (w w' : World) (m : jsstring),
    repos_listForAuthenticatedUser octokit
      {| lp_visibility := or_default (a_visibility a) (lit "all");
         lp_sort := lit "updated"; lp_per_page := 100 |} w
    = (Throw m, w') ->
    post_execute octokit (invocation "list_repositories" a) w
    = (Normal (res_json 500 (object [("error", JStr m)])), w').
Proof.
  intros World octokit a w w' m H.
  unfold post_execute. run. dispatch. run. rewrite H. reflexivity.
Qed.

Lemma execute_list_repositories_rejection_witness :
  repos_listForAuthenticatedUser Fixture.client
    {| lp_visibility := or_default (a_visibility no_arguments) (lit "all");
       lp_sort := lit "updated"; lp_per_page := 100 |} Fixture.locked_out
  = (Throw (lit "Bad credentials"), Fixture.locked_out)
  /\ post_execute Fixture.client (invocation "list_repositories" no_arguments)
       Fixture.locked_out
     = (Normal (res_json 500 (object [("error", JStr (lit "Bad credentials"))])),
        Fixture.locked_out).
Proof.
  split; [reflexivity |].
  apply (execute_list_repositories_rejection Fixture.Host Fixture.client
           no_arguments Fixture.locked_out Fixture.locked_out
           (lit "Bad credentials")).
  reflexivity.
Defined.

(** Without an [arguments] object the same case fails on [args.visibility]
    and is answered with HTTP 500 too. *)
Lemma execute_list_repositories_without_arguments :
  forall (World : Type) (octokit : Octokit World) (w : World),
    post_execute octokit
      {| tool := Some (lit "list_repositories"); arguments := None |} w
    = (Normal
         (res_json 500
            (object
               [("error",
                 str "Cannot read properties of undefined (reading 'visibility')")])),
       w).
Proof.
  intros. unfold post_execute. run. dispatch. reflexivity.
Qed.

(** ** The two adapters compared *)

(** The text of a [{result: ...}] envelope is the text of its payload between
    [{"result":] and [}]. *)
Lemma result_envelope_text (code : N) (payload : json) :
  json_text (res_json code (object [("result", payload)]))
  = lit "{" ++ (quote (lit "result") ++ lit ":" ++ JSON_stringify payload)
      ++ lit "}".
Proof. reflexivity. Qed.

(** C1 (amended).  For each of the five operations, every argument set and
    every upstream outcome other than a directory met by [get_file] (and
    leaving aside a rejected repository listing), the tool-invocation
    adapter answers HTTP 200 with [{result: b}] where [b] is exactly the body
    the REST adapter sends for the equivalent request, success and error
    bodies alike; the JSON texts differ by the envelope only, and both
    adapters leave the upstream in the same state. *)
Theorem adapters_agree :
  forall (World : Type) (octokit : Octokit World) (r : RestRequest) (w : World),
    ~ path_is_directory octokit r w ->
    ~ listing_rejected octokit r w ->
    exists (by_rest by_tool : Response) (w' : World),
      rest octokit r w = (Normal by_rest, w')
      /\ post_execute octokit (equivalent_invocation r) w = (Normal by_tool, w')
      /\ status by_tool = 200
      /\ body by_tool = object [("result", body by_rest)]
      /\ json_text by_tool
         = lit "{" ++ (quote (lit "result") ++ lit ":" ++ json_text by_rest)
             ++ lit "}".
Proof.
  intros World octokit r w Hdir Hrej.
  destruct r as [q | req | req | req | req];
    cbn [rest path_is_directory listing_rejected] in *;
    unfold post_execute, get_repos, get_contents, put_contents, post_branches,
      post_pulls;
    run; dispatch; run; upstream_cases;
    try (exfalso; apply Hdir; eexists; eexists; reflexivity);
    try (exfalso; apply Hrej; eexists; eexists; reflexivity);
    eexists; eexists; eexists;
    (split; [reflexivity |]); (split; [reflexivity |]);
    (split; [reflexivity |]); (split; reflexivity).
Qed.

Lemma adapters_agree_witness :
  ~ path_is_directory Fixture.client (GetContents read_readme) Fixture.host
  /\ ~ listing_rejected Fixture.client (GetContents read_readme) Fixture.host
  /\ exists (by_rest by_tool : Response) (w' : Fixture.Host),
       rest Fixture.client (GetContents read_readme) Fixture.host
       = (Normal by_rest, w')
       /\ post_execute Fixture.client
            (equivalent_invocation (GetContents read_readme)) Fixture.host
          = (Normal by_tool, w')
       /\ status by_tool = 200
       /\ body by_tool = object [("result", body by_rest)]
       /\ json_text by_tool
          = lit "{" ++ (quote (lit "result") ++ lit ":" ++ json_text by_rest)
              ++ lit "}".
Proof.
  assert (Hd : ~ path_is_directory Fixture.client (GetContents read_readme)
                 Fixture.host).
  { intros [entries [w' E]]. vm_compute in E. discriminate E. }
  assert (Hl : ~ listing_rejected Fixture.client (GetContents read_readme)
                 Fixture.host).
  { intros H. exact H. }
  split; [exact Hd |]. split; [exact Hl |].
  exact (adapters_agree Fixture.Host Fixture.client (GetContents read_readme)
           Fixture.host Hd Hl).
Defined.

(** C1, counterexample.  Reading the directory [src]: the REST adapter sends
    [{error: "Path is a directory"}], the tool adapter
    [{result: {error: "Path is a directory, not a file"}}]; the payload inside
    the envelope is not the REST body. *)
Lemma adapters_disagree_on_directory :
  rest Fixture.client (GetContents read_directory) Fixture.host
  = (Normal (res_json 400 (object [("error", str "Path is a directory")])),
     Fixture.host)
  /\ post_execute Fixture.client
       (equivalent_invocation (GetContents read_directory)) Fixture.host
     = (Normal
          (res_json 200
             (object
                [("result",
                  object [("error", str "Path is a directory, not a file")])])),
        Fixture.host)
  /\ object [("error", str "Path is a directory, not a file")]
     <> object [("error", str "Path is a directory")].
Proof.
  split; [vm_compute; reflexivity |].
  split; [vm_compute; reflexivity |].
  intros H. vm_compute in H. congruence.
Qed.

(** C5 (amended).  When the upstream answers a file read with a list (the
    path is a directory), the tool-invocation adapter answers HTTP 200 with
    [{result: {error: "Path is a directory, not a file"}}] and the REST
    adapter answers HTTP 400 with [{error: "Path is a directory"}]; when the
    upstream rejects the read with message [m], they answer HTTP 200 with
    [{result: {error: m}}] and HTTP 500 with [{error: m}]. *)
Theorem get_file_on_directory :
  forall (World : Type) (octokit : Octokit World) (w : World),
    (forall (a : Arguments) entries w',
        repos_getContent octokit
          {| cp_owner := a_owner a; cp_repo := a_repo a;
             cp_path := a_path a; cp_ref := a_branch a |} w
        = (Normal (Directory entries), w') ->
        post_execute octokit (invocation "get_file" a) w
        = (Normal
             (res_json 200
                (object
                   [("result",
                     object
                       [("error", str "Path is a directory, not a file")])])),
           w'))
    /\ (forall (req : GetContentsReq) entries w',
           repos_getContent octokit
             {| cp_owner := Some (gc_owner req); cp_repo := Some (gc_repo req);
                cp_path := Some (gc_path req); cp_ref := gc_branch req |} w
           = (Normal (Directory entries), w') ->
           get_contents octokit req w
           = (Normal
                (res_json 400 (object [("error", str "Path is a directory")])),
              w'))
    /\ (forall (a : Arguments) m w',
           repos_getContent octokit
             {| cp_owner := a_owner a; cp_repo := a_repo a;
                cp_path := a_path a; cp_ref := a_branch a |} w
           = (Throw m, w') ->
           post_execute octokit (invocation "get_file" a) w
           = (Normal
                (res_json 200 (object [("result", object [("error", JStr m)])])),
              w'))
    /\ (forall (req : GetContentsReq) m w',
           repos_getContent octokit
             {| cp_owner := Some (gc_owner req); cp_repo := Some (gc_repo req);
                cp_path := Some (gc_path req); cp_ref := gc_branch req |} w
           = (Throw m, w') ->
           get_contents octokit req w
           = (Normal (res_json 500 (object [("error", JStr m)])), w')).
Proof.
  intros World octokit w.
  repeat split; intros x y w' H;
    unfold post_execute, get_contents; run; dispatch; run; rewrite H;
    reflexivity.
Qed.

Lemma get_file_on_directory_witness :
  (repos_getContent Fixture.client
     {| cp_owner := Some (gc_owner read_directory);
        cp_repo := Some (gc_repo read_directory);
        cp_path := Some (gc_path read_directory);
        cp_ref := gc_branch read_directory |} Fixture.host
   = (Normal (Directory [str "index.js"]), Fixture.host))
  /\ get_contents Fixture.client read_directory Fixture.host
     = (Normal (res_json 400 (object [("error", str "Path is a directory")])),
        Fixture.host)
  /\ (repos_getContent Fixture.client
        {| cp_owner := Some (gc_owner read_missing);
           cp_repo := Some (gc_repo read_missing);
           cp_path := Some (gc_path read_missing);
           cp_ref := gc_branch read_missing |} Fixture.host
      = (Throw (lit "Not Found"), Fixture.host))
  /\ get_contents Fixture.client read_missing Fixture.host
     = (Normal (res_json 500 (object [("error", str "Not Found")])),
        Fixture.host).
Proof.
  assert (Hd : repos_getContent Fixture.client
                 {| cp_owner := Some (gc_owner read_directory);
                    cp_repo := Some (gc_repo read_directory);
                    cp_path := Some (gc_path read_directory);
                    cp_ref := gc_branch read_directory |} Fixture.host
               = (Normal (Directory [str "index.js"]), Fixture.host))
    by reflexivity.
  assert (Hm : repos_getContent Fixture.client
                 {| cp_owner := Some (gc_owner read_missing);
                    cp_repo := Some (gc_repo read_missing);
                    cp_path := Some (gc_path read_missing);
                    cp_ref := gc_branch read_missing |} Fixture.host
               = (Throw (lit "Not Found"), Fixture.host))
    by reflexivity.
  pose proof (get_file_on_directory Fixture.Host Fixture.client Fixture.host)
    as [_ [Hdir [_ Hrej]]].
  split; [exact Hd |].
  split; [exact (Hdir read_directory _ _ Hd) |].
  split; [exact Hm |].
  exact (Hrej read_missing _ _ Hm).
Defined.

(** C5, counterexample.  For the directory [src] the REST adapter's message
    is ["Path is a directory"], which is not the message
    ["Path is a directory, not a file"]. *)
Lemma rest_directory_message :
  (exists w',
      get_contents Fixture.client read_directory Fixture.host
      = (Normal (res_json 400 (object [("error", str "Path is a directory")])),
         w'))
  /\ get_prop "error" (object [("error", str "Path is a directory")])
     <> Some (str "Path is a directory, not a file").
Proof.
  split.
  - exists Fixture.host. vm_compute. reflexivity.
  - intros H. vm_compute in H. congruence.
Qed.

(** ** create_or_update_file *)

(** C2.  In both adapters, create_or_update_file first reads the file; when
    that read fails the failure is not reported and the write is issued
    without a revision token ([sha] undefined, a create); when the read finds
    a file the write carries that file's [sha] (an update); the answer is the
    success body when the write is accepted and [{error: message}] with the
    message of the write call when it is rejected. *)
Theorem create_or_update_file_existence_check :
  forall (World : Type) (octokit : Octokit World) (w : World),
    (forall (a : Arguments) (c : jsstring),
        a_content a = Some c ->
        let read :=
          repos_getContent octokit
            {| cp_owner := a_owner a; cp_repo := a_repo a;
               cp_path := a_path a; cp_ref := a_branch a |} w in
        let write := fun (sha : option json) (w1 : World) =>
          repos_createOrUpdateFileContents octokit
            {| wp_owner := a_owner a; wp_repo := a_repo a;
               wp_path := a_path a; wp_message := a_message a;
               wp_content := base64_encode (utf8_encode c);
               wp_branch := a_branch a; wp_sha := sha |} w1 in
        (forall e w1,
            read = (Throw e, w1) ->
            post_execute octokit (invocation "create_or_update_file" a) w
            = (Normal (respond_tool (fst (write None w1))),
               snd (write None w1)))
        /\ (forall f w1,
               read = (Normal (File f), w1) ->
               post_execute octokit (invocation "create_or_update_file" a) w
               = (Normal (respond_tool (fst (write (Some (fd_sha f)) w1))),
                  snd (write (Some (fd_sha f)) w1))))
    /\ (forall (req : PutContentsReq) (c : jsstring),
           pc_content req = Some c ->
           let read :=
             repos_getContent octokit
               {| cp_owner := Some (pc_owner req); cp_repo := Some (pc_repo req);
                  cp_path := Some (pc_path req); cp_ref := pc_branch req |} w in
           let write := fun (sha : option json) (w1 : World) =>
             repos_createOrUpdateFileContents octokit
               {| wp_owner := Some (pc_owner req); wp_repo := Some (pc_repo req);
                  wp_path := Some (pc_path req); wp_message := pc_message req;
                  wp_content := base64_encode (utf8_encode c);
                  wp_branch := pc_branch req; wp_sha := sha |} w1 in
           (forall e w1,
               read = (Throw e, w1) ->
               put_contents octokit req w
               = (Normal (respond_rest (fst (write None w1))),
                  snd (write None w1)))
           /\ (forall f w1,
                  read = (Normal (File f), w1) ->
                  put_contents octokit req w
                  = (Normal (respond_rest (fst (write (Some (fd_sha f)) w1))),
                     snd (write (Some (fd_sha f)) w1)))).
Proof.
  intros World octokit w.
  split; intros x c Hc read write; subst read write;
    (split; intros y w1 H;
     unfold post_execute, put_contents; run; dispatch; run;
     rewrite H, Hc; cbn [data_sha Buffer_from];
     match goal with
     | |- context [repos_createOrUpdateFileContents ?o ?p ?v] =>
         destruct (repos_createOrUpdateFileContents o p v) as [[r | m] w2]
     end;
     reflexivity).
Qed.

Lemma create_or_update_file_existence_check_witness :
  pc_content write_new_file = Some (lit "hello")
  /\ repos_getContent Fixture.client
       {| cp_owner := Some (pc_owner write_new_file);
          cp_repo := Some (pc_repo write_new_file);
          cp_path := Some (pc_path write_new_file);
          cp_ref := pc_branch write_new_file |} Fixture.host
     = (Throw (lit "Not Found"), Fixture.host)
  /\ fst (put_contents Fixture.client write_new_file Fixture.host)
     = Normal
         (res_json 200
            (object
               [("success", JBool true);
                ("commit", str "c0ffee");
                ("content",
                 object [("path", str "notes.txt");
                         ("sha", str "sha-aGVsbG8=")])])).
Proof.
  assert (Hc : pc_content write_new_file = Some (lit "hello")) by reflexivity.
  assert (Hr : repos_getContent Fixture.client
                 {| cp_owner := Some (pc_owner write_new_file);
                    cp_repo := Some (pc_repo write_new_file);
                    cp_path := Some (pc_path write_new_file);
                    cp_ref := pc_branch write_new_file |} Fixture.host
               = (Throw (lit "Not Found"), Fixture.host)) by reflexivity.
  split; [exact Hc |]. split; [exact Hr |].
  rewrite (proj1 (proj2 (create_or_update_file_existence_check Fixture.Host
                           Fixture.client Fixture.host)
                    write_new_file (lit "hello") Hc) _ _ Hr).
  vm_compute. reflexivity.
Defined.

(** A directory found by the existence check has no [sha]: the write is
    issued without a token. *)
Lemma create_or_update_file_over_directory :
  forall (World : Type) (octokit : Octokit World) (req : PutContentsReq)
         (c : jsstring) (w w1 : World) (entries : list json),
    pc_content req = Some c ->
    repos_getContent octokit
      {| cp_owner := Some (pc_owner req); cp_repo := Some (pc_repo req);
         cp_path := Some (pc_path req); cp_ref := pc_branch req |} w
    = (Normal (Directory entries), w1) ->
    put_contents octokit req w
    = (let result :=
         repos_createOrUpdateFileContents octokit
           {| wp_owner := Some (pc_owner req); wp_repo := Some (pc_repo req);
              wp_path := Some (pc_path req); wp_message := pc_message req;
              wp_content := base64_encode (utf8_encode c);
              wp_branch := pc_branch req; wp_sha := None |} w1 in
       (Normal (respond_rest (fst result)), snd result)).
Proof.
  intros World octokit req c w w1 entries Hc H.
  unfold put_contents; run. rewrite H, Hc. cbn [data_sha Buffer_from].
  match goal with
  | |- context [repos_createOrUpdateFileContents ?o ?p ?v] =>
      destruct (repos_createOrUpdateFileContents o p v) as [[r | m] w2]
  end; reflexivity.
Qed.

(** A missing [content] fails before the write is issued; the [TypeError]
    of [Buffer.from] is reported like a rejected write. *)
Lemma create_or_update_file_without_content :
  forall (World : Type) (octokit : Octokit World) (req : PutContentsReq)
         (w : World),
    pc_content req = None ->
    exists w1,
      put_contents octokit req w
      = (Normal (res_json 500 (object [("error", JStr buffer_type_error)])), w1).
Proof.
  intros World octokit req w Hc.
  unfold put_contents; run. rewrite Hc. cbn [Buffer_from]. upstream_cases;
    eexists; reflexivity.
Qed.

(** ** create_branch *)

(** C7.  create_branch takes as source the explicit [from_branch] when one
    is supplied and the repository's default branch otherwise, reads the head
    commit of that branch ([heads/<source>]) and creates [refs/heads/<branch>]
    at that same commit; the answer is [{success: true, branch, sha}] with the
    [sha] of the created ref.  Both adapters. *)
Theorem create_branch_from_source :
  forall (World : Type) (octokit : Octokit World)
         (b source : jsstring) (w w1 w2 w3 : World)
         (repository : RepoData) (head created : RefData),
    (forall a : Arguments,
        a_branch a = Some b ->
        repos_get octokit {| rp_owner := a_owner a; rp_repo := a_repo a |} w
        = (Normal repository, w1) ->
        branch_source (rd_default_branch repository) (a_from_branch a) source ->
        git_getRef octokit
          {| gr_owner := a_owner a; gr_repo := a_repo a;
             gr_ref := lit "heads/" ++ source |} w1
        = (Normal head, w2) ->
        git_createRef octokit
          {| cr_owner := a_owner a; cr_repo := a_repo a;
             cr_ref := lit "refs/heads/" ++ b;
             cr_sha := ref_object_sha head |} w2
        = (Normal created, w3) ->
        post_execute octokit (invocation "create_branch" a) w
        = (Normal
             (res_json 200
                (object
                   [("result",
                     object [("success", JBool true);
                             ("branch", JStr b);
                             ("sha", ref_object_sha created)])])),
           w3))
    /\ (forall req : PostBranchesReq,
           pb_branch req = Some b ->
           repos_get octokit
             {| rp_owner := Some (pb_owner req);
                rp_repo := Some (pb_repo req) |} w
           = (Normal repository, w1) ->
           branch_source (rd_default_branch repository) (pb_from_branch req)
             source ->
           git_getRef octokit
             {| gr_owner := Some (pb_owner req); gr_repo := Some (pb_repo req);
                gr_ref := lit "heads/" ++ source |} w1
           = (Normal head, w2) ->
           git_createRef octokit
             {| cr_owner := Some (pb_owner req); cr_repo := Some (pb_repo req);
                cr_ref := lit "refs/heads/" ++ b;
                cr_sha := ref_object_sha head |} w2
           = (Normal created, w3) ->
           post_branches octokit req w
           = (Normal
                (res_json 200
                   (object [("success", JBool true);
                            ("branch", JStr b);
                            ("sha", ref_object_sha created)])),
              w3)).
Proof.
  intros World octokit b source w w1 w2 w3 repository head created.
  split; intros x Hb Hget Hsrc Href Hcreate.
  - assert (E : or_default (a_from_branch x) (rd_default_branch repository)
                = source) by (destruct Hsrc; reflexivity).
    unfold post_execute; run; dispatch; run.
    rewrite Hget, E, Href, Hb; cbn [template]; rewrite Hcreate; reflexivity.
  - assert (E : or_default (pb_from_branch x) (rd_default_branch repository)
                = source) by (destruct Hsrc; reflexivity).
    unfold post_branches; run.
    rewrite Hget, E, Href, Hb; cbn [template]; rewrite Hcreate; reflexivity.
Qed.

Lemma create_branch_from_source_witness :
  pb_branch branch_from_default = Some (lit "dev")
  /\ branch_source (lit "main") (pb_from_branch branch_from_default) (lit "main")
  /\ fst (post_branches Fixture.client branch_from_default Fixture.host)
     = Normal
         (res_json 200
            (object [("success", JBool true);
                     ("branch", str "dev");
                     ("sha", str "abc123")])).
Proof.
  assert (Hs : branch_source (lit "main") (pb_from_branch branch_from_default)
                 (lit "main")) by apply source_default.
  split; [reflexivity |]. split; [exact Hs |].
  rewrite (proj2 (create_branch_from_source Fixture.Host Fixture.client
                    (lit "dev") (lit "main")
                    Fixture.host Fixture.host Fixture.host
                    (snd (git_createRef Fixture.client
                            {| cr_owner := Some (lit "octo");
                               cr_repo := Some (lit "demo");
                               cr_ref := lit "refs/heads/" ++ lit "dev";
                               cr_sha := str "abc123" |} Fixture.host))
                    {| rd_default_branch := lit "main" |}
                    {| ref_object_sha := str "abc123" |}
                    {| ref_object_sha := str "abc123" |})
             branch_from_default eq_refl eq_refl Hs eq_refl eq_refl).
  reflexivity.
Defined.

(** ** list_repositories *)

Lemma summary_has_seven_fields (r : Repository) :
  field_names (repository_summary r) = summary_fields.
Proof. reflexivity. Qed.

(** C8.  list_repositories asks the upstream for the repositories of the
    authenticated user with the given visibility, ["all"] when none is
    given, sorted by ["updated"], 100 per page; every entry of the answer is
    the projection of an upstream entry to exactly the fields name,
    full_name, owner, private, description, url, default_branch, in the
    order of the listing, so that a listing of at most 100 entries yields at
    most 100 results.  Both adapters. *)
Theorem list_repositories_request_and_projection :
  forall (World : Type) (octokit : Octokit World)
         (given : option jsstring) (visibility : jsstring) (w w' : World)
         (repos : list Repository),
    visibility_filter given visibility ->
    repos_listForAuthenticatedUser octokit
      {| lp_visibility := visibility; lp_sort := lit "updated";
         lp_per_page := 100 |} w
    = (Normal repos, w') ->
    (List.length repos <= 100)%nat ->
    exists summaries : list json,
      get_repos octokit {| q_visibility := given |} w
      = (Normal (res_json 200 (JArr summaries)), w')
      /\ (forall a : Arguments,
             a_visibility a = given ->
             post_execute octokit (invocation "list_repositories" a) w
             = (Normal (res_json 200 (object [("result", JArr summaries)])),
                w'))
      /\ summaries
         = map (fun r =>
                  object [("name", r_name r);
                          ("full_name", r_full_name r);
                          ("owner", r_owner_login r);
                          ("private", r_private r);
                          ("description", r_description r);
                          ("url", r_html_url r);
                          ("default_branch", r_default_branch r)]) repos
      /\ Forall (fun entry => field_names entry = summary_fields) summaries
      /\ (List.length summaries <= 100)%nat.
Proof.
  intros World octokit given visibility w w' repos Hv Hcall Hlen.
  assert (E : or_default given (lit "all") = visibility).
  { destruct Hv; reflexivity. }
  exists (map repository_summary repos).
  split; [| split; [| split; [| split]]].
  - unfold get_repos; run. rewrite E, Hcall. reflexivity.
  - intros a Ha. unfold post_execute; run; dispatch; run.
    rewrite Ha, E, Hcall. reflexivity.
  - reflexivity.
  - apply Forall_forall. intros entry Hin. apply in_map_iff in Hin.
    destruct Hin as [r [Hr _]]. subst entry. apply summary_has_seven_fields.
  - rewrite length_map. exact Hlen.
Qed.

Lemma list_repositories_request_and_projection_witness :
  visibility_filter None (lit "all")
  /\ (List.length [Fixture.the_repository] <= 100)%nat
  /\ exists summaries : list json,
       get_repos Fixture.client {| q_visibility := None |} Fixture.host
       = (Normal (res_json 200 (JArr summaries)), Fixture.host)
       /\ List.length summaries = 1%nat.
Proof.
  assert (Hv : visibility_filter None (lit "all")) by apply filter_absent.
  assert (Hl : (List.length [Fixture.the_repository] <= 100)%nat)
    by (cbn; lia).
  split; [exact Hv |]. split; [exact Hl |].
  destruct (list_repositories_request_and_projection Fixture.Host
              Fixture.client None (lit "all")
              Fixture.host Fixture.host [Fixture.the_repository]
              Hv eq_refl Hl)
    as [summaries [Hrest [_ [Hmap _]]]].
  exists summaries. split; [exact Hrest |].
  rewrite Hmap. reflexivity.
Defined.

(** ** Optional arguments *)

(** C10.  For the optional arguments defaulted with [||], the empty string
    behaves exactly as a missing argument, in both adapters: an empty
    [visibility] is replaced by ["all"], an empty [from_branch] by the
    repository's default branch, and an empty pull-request [body] stays
    empty.  The last three parts say what reaches the upstream: with an empty
    [visibility] the listing is requested with visibility ["all"], with an
    empty [from_branch] the head is read from [heads/<default branch>], with
    an empty [body] the pull request is created with body [""]; the answer
    is the one those calls give. *)
Theorem empty_string_as_omitted :
  forall (World : Type) (octokit : Octokit World) (w : World),
    get_repos octokit {| q_visibility := Some [] |} w
    = get_repos octokit {| q_visibility := None |} w
    /\ (forall a,
           post_execute octokit
             (invocation "list_repositories" (with_visibility (Some []) a)) w
           = post_execute octokit
               (invocation "list_repositories" (with_visibility None a)) w)
    /\ (forall owner repo branch,
           post_branches octokit
             {| pb_owner := owner; pb_repo := repo; pb_branch := branch;
                pb_from_branch := Some [] |} w
           = post_branches octokit
               {| pb_owner := owner; pb_repo := repo; pb_branch := branch;
                  pb_from_branch := None |} w)
    /\ (forall a,
           post_execute octokit
             (invocation "create_branch" (with_from_branch (Some []) a)) w
           = post_execute octokit
               (invocation "create_branch" (with_from_branch None a)) w)
    /\ (forall owner repo title head base,
           post_pulls octokit
             {| pp_owner := owner; pp_repo := repo; pp_title := title;
                pp_body := Some []; pp_head := head; pp_base := base |} w
           = post_pulls octokit
               {| pp_owner := owner; pp_repo := repo; pp_title := title;
                  pp_body := None; pp_head := head; pp_base := base |} w)
    /\ (forall a,
           post_execute octokit
             (invocation "create_pull_request" (with_body (Some []) a)) w
           = post_execute octokit
               (invocation "create_pull_request" (with_body None a)) w)
    /\ (forall default,
           or_default (Some []) (lit "all") = lit "all"
           /\ or_default (Some []) default = default
           /\ or_default (Some []) (lit EmptyString) = [])
    /\ (forall (o : outcome (list Repository)) (w' : World),
           repos_listForAuthenticatedUser octokit
             {| lp_visibility := lit "all"; lp_sort := lit "updated";
                lp_per_page := 100 |} w
           = (o, w') ->
           get_repos octokit {| q_visibility := Some [] |} w
           = (Normal
                (match o with
                 | Normal repos =>
                     res_json 200 (JArr (map repository_summary repos))
                 | Throw m => res_json 500 (object [("error", JStr m)])
                 end),
              w')
           /\ (forall (a : Arguments) (repos : list Repository),
                  o = Normal repos ->
                  post_execute octokit
                    (invocation "list_repositories"
                       (with_visibility (Some []) a)) w
                  = (Normal
                       (res_json 200
                          (object
                             [("result",
                               JArr (map repository_summary repos))])),
                     w')))
    /\ (forall (owner repo b : jsstring) (repository : RepoData)
               (o2 : outcome RefData) (w1 w2 : World),
           let req :=
             {| pb_owner := owner; pb_repo := repo; pb_branch := Some b;
                pb_from_branch := Some [] |} in
           repos_get octokit
             {| rp_owner := Some owner; rp_repo := Some repo |} w
           = (Normal repository, w1) ->
           git_getRef octokit
             {| gr_owner := Some owner; gr_repo := Some repo;
                gr_ref := lit "heads/" ++ rd_default_branch repository |} w1
           = (o2, w2) ->
           match o2 with
           | Throw m =>
               post_branches octokit req w
               = (Normal (res_json 500 (object [("error", JStr m)])), w2)
               /\ post_execute octokit
                    (equivalent_invocation (PostBranches req)) w
                  = (Normal
                       (res_json 200
                          (object [("result", object [("error", JStr m)])])),
                     w2)
           | Normal head =>
               forall (o3 : outcome RefData) (w3 : World),
                 git_createRef octokit
                   {| cr_owner := Some owner; cr_repo := Some repo;
                      cr_ref := lit "refs/heads/" ++ b;
                      cr_sha := ref_object_sha head |} w2
                 = (o3, w3) ->
                 let result :=
                   match o3 with
                   | Normal created =>
                       object [("success", JBool true);
                               ("branch", JStr b);
                               ("sha", ref_object_sha created)]
                   | Throw m => object [("error", JStr m)]
                   end in
                 post_branches octokit req w
                 = (Normal
                      (res_json
                         (match o3 with Normal _ => 200 | Throw _ => 500 end)
                         result),
                    w3)
                 /\ post_execute octokit
                      (equivalent_invocation (PostBranches req)) w
                    = (Normal (res_json 200 (object [("result", result)])), w3)
           end)
    /\ (forall (owner repo : jsstring) (title head base : option jsstring)
               (o : outcome PullData) (w' : World),
           let req :=
             {| pp_owner := owner; pp_repo := repo; pp_title := title;
                pp_body := Some []; pp_head := head; pp_base := base |} in
           pulls_create octokit
             {| pl_owner := Some owner; pl_repo := Some repo;
                pl_title := title; pl_body := [];
                pl_head := head; pl_base := base |} w
           = (o, w') ->
           let result :=
             match o with
             | Normal pr =>
                 object [("success", JBool true);
                         ("number", pd_number pr);
                         ("url", pd_html_url pr);
                         ("state", pd_state pr)]
             | Throw m => object [("error", JStr m)]
             end in
           post_pulls octokit req w
           = (Normal
                (res_json (match o with Normal _ => 200 | Throw _ => 500 end)
                   result),
              w')
           /\ post_execute octokit (equivalent_invocation (PostPulls req)) w
              = (Normal (res_json 200 (object [("result", result)])), w')).
Proof.
  intros World octokit w.
  do 7 (split; [intros; repeat split; intros; reflexivity |]).
  split; [| split].
  - intros o w' H. split.
    + unfold get_repos; run. cbn [or_default]. rewrite H.
      destruct o; reflexivity.
    + intros a repos E. subst o.
      unfold post_execute; run; dispatch; run.
      cbn [with_visibility a_visibility or_default]. rewrite H. reflexivity.
  - intros owner repo b repository o2 w1 w2 req Hget Href. subst req.
    destruct o2 as [head | m].
    + intros o3 w3 Hcreate result. subst result.
      split; unfold post_execute, post_branches; run; dispatch; run;
        rewrite Hget; cbn [or_default]; rewrite Href; cbn [template];
        rewrite Hcreate; destruct o3; reflexivity.
    + split; unfold post_execute, post_branches; run; dispatch; run;
        rewrite Hget; cbn [or_default]; rewrite Href; reflexivity.
  - intros owner repo title head base o w' req H result. subst req result.
    split; unfold post_execute, post_pulls; run; dispatch; run;
      cbn [or_default]; change (lit EmptyString) with (@nil code_unit);
      rewrite H; destruct o; reflexivity.
Qed.

Lemma empty_string_as_omitted_witness :
  repos_listForAuthenticatedUser Fixture.client
    {| lp_visibility := lit "all"; lp_sort := lit "updated";
       lp_per_page := 100 |} Fixture.host
  = (Normal [Fixture.the_repository], Fixture.host)
  /\ get_repos Fixture.client {| q_visibility := Some [] |} Fixture.host
     = (Normal
          (res_json 200
             (JArr (map repository_summary [Fixture.the_repository]))),
        Fixture.host)
  /\ git_getRef Fixture.client
       {| gr_owner := Some (lit "octo"); gr_repo := Some (lit "demo");
          gr_ref := lit "heads/" ++ lit "main" |} Fixture.host
     = (Normal {| ref_object_sha := str "abc123" |}, Fixture.host)
  /\ fst (post_branches Fixture.client
            {| pb_owner := lit "octo"; pb_repo := lit "demo";
               pb_branch := Some (lit "dev"); pb_from_branch := Some [] |}
            Fixture.host)
     = Normal
         (res_json 200
            (object [("success", JBool true);
                     ("branch", str "dev");
                     ("sha", str "abc123")]))
  /\ fst (post_pulls Fixture.client
            {| pp_owner := lit "octo"; pp_repo := lit "demo";
               pp_title := Some (lit "Add notes"); pp_body := Some [];
               pp_head := Some (lit "dev"); pp_base := Some (lit "main") |}
            Fixture.host)
     = Normal
         (res_json 200
            (object [("success", JBool true);
                     ("number", JNum 1);
                     ("url", str "https://github.com/octo/demo/pull/1");
                     ("state", str "open")])).
Proof.
  destruct (empty_string_as_omitted Fixture.Host Fixture.client Fixture.host)
    as [_ [_ [_ [_ [_ [_ [_ [Hvisibility [Hbranch Hbody]]]]]]]]].
  assert (Hlist : repos_listForAuthenticatedUser Fixture.client
                    {| lp_visibility := lit "all"; lp_sort := lit "updated";
                       lp_per_page := 100 |} Fixture.host
                  = (Normal [Fixture.the_repository], Fixture.host))
    by reflexivity.
  assert (Href : git_getRef Fixture.client
                   {| gr_owner := Some (lit "octo");
                      gr_repo := Some (lit "demo");
                      gr_ref := lit "heads/" ++ lit "main" |} Fixture.host
                 = (Normal {| ref_object_sha := str "abc123" |}, Fixture.host))
    by reflexivity.
  split; [exact Hlist |].
  split; [exact (proj1 (Hvisibility _ _ Hlist)) |].
  split; [exact Href |].
  split.
  - rewrite (proj1 (Hbranch (lit "octo") (lit "demo") (lit "dev")
                      {| rd_default_branch := lit "main" |}
                      (Normal {| ref_object_sha := str "abc123" |})
                      Fixture.host Fixture.host eq_refl Href
                      (fst (git_createRef Fixture.client
                              {| cr_owner := Some (lit "octo");
                                 cr_repo := Some (lit "demo");
                                 cr_ref := lit "refs/heads/" ++ lit "dev";
                                 cr_sha := str "abc123" |} Fixture.host))
                      (snd (git_createRef Fixture.client
                              {| cr_owner := Some (lit "octo");
                                 cr_repo := Some (lit "demo");
                                 cr_ref := lit "refs/heads/" ++ lit "dev";
                                 cr_sha := str "abc123" |} Fixture.host))
                      eq_refl)).
    reflexivity.
  - rewrite (proj1 (Hbody (lit "octo") (lit "demo") (Some (lit "Add notes"))
                      (Some (lit "dev")) (Some (lit "main"))
                      (fst (pulls_create Fixture.client
                              {| pl_owner := Some (lit "octo");
                                 pl_repo := Some (lit "demo");
                                 pl_title := Some (lit "Add notes");
                                 pl_body := [];
                                 pl_head := Some (lit "dev");
                                 pl_base := Some (lit "main") |} Fixture.host))
                      (snd (pulls_create Fixture.client
                              {| pl_owner := Some (lit "octo");
                                 pl_repo := Some (lit "demo");
                                 pl_title := Some (lit "Add notes");
                                 pl_body := [];
                                 pl_head := Some (lit "dev");
                                 pl_base := Some (lit "main") |} Fixture.host))
                      eq_refl)).
    reflexivity.
Defined.

(** ** Discovery *)

(** C6 (amended).  GET /metadata and the first event of GET /sse each serve a
    fixed list of exactly five tool descriptors, named list_repositories,
    get_file, create_or_update_file, create_branch and create_pull_request in
    that order, for every request; the two lists agree on every tool's name,
    description, required arguments and on the name, type and enumeration of
    every declared argument, and four of the five descriptors are identical.
    The plugin manifest serves no tool descriptor: it carries the URL of the
    OpenAPI document only. *)
Theorem discovery_descriptors :
  (forall (World : Type) (w : World),
      get_metadata w = (Normal (res_json 200 http_metadata), w)
      /\ fst (get_sse (World := World) w)
         = Normal
             {| sse_headers :=
                  [("Content-Type", "text/event-stream");
                   ("Cache-Control", "no-cache");
                   ("Connection", "keep-alive")];
                sse_first_chunk :=
                  lit "data: "
                    ++ JSON_stringify
                         (object [("type", str "metadata");
                                  ("metadata", sse_metadata)])
                    ++ [10; 10] |})
  /\ get_prop "tools" http_metadata = Some (JArr metadata_tools)
  /\ get_prop "tools" sse_metadata = Some (JArr sse_tools)
  /\ List.length metadata_tools = 5%nat
  /\ List.length sse_tools = 5%nat
  /\ map tool_name metadata_tools = map (fun n => Some (JStr n)) known_tools
  /\ map tool_name sse_tools = map (fun n => Some (JStr n)) known_tools
  /\ map tool_description metadata_tools = map tool_description sse_tools
  /\ map tool_required metadata_tools = map tool_required sse_tools
  /\ map tool_arguments metadata_tools = map tool_arguments sse_tools
  /\ (forall i, i <> 2%nat -> nth_error metadata_tools i = nth_error sse_tools i)
  /\ (forall host : option jsstring,
         get_prop "tools" (plugin_manifest host) = None
         /\ get_prop "api" (plugin_manifest host)
            = Some
                (object
                   [("type", str "openapi");
                    ("url",
                     JStr (lit "https://" ++ template host
                             ++ lit "/openapi.json"))])).
Proof.
  split; [intros; split; reflexivity |].
  do 9 (split; [vm_compute; reflexivity |]).
  split.
  - intros i Hi.
    destruct i as [| [| [| [| [| i]]]]];
      [reflexivity | reflexivity | congruence | reflexivity | reflexivity
      | reflexivity].
  - intros host. split; reflexivity.
Qed.

(** C6, counterexample.  The descriptors of create_or_update_file served by
    GET /metadata and by GET /sse differ in their input schemas (the
    descriptions of [content] and of [branch]), so the two descriptor lists
    are not identical; and the plugin manifest has no descriptor list at
    all. *)
Lemma discovery_descriptors_differ :
  map tool_schema metadata_tools <> map tool_schema sse_tools
  /\ metadata_tools <> sse_tools
  /\ get_prop "tools" (plugin_manifest (Some (lit "example.org"))) = None.
Proof.
  assert (H : map tool_schema metadata_tools <> map tool_schema sse_tools).
  { intros E. vm_compute in E. congruence. }
  split; [exact H |]. split; [| reflexivity].
  intros E. apply H. rewrite E. reflexivity.
Qed.

(** ** File contents *)

(** What get_file decodes from what create_or_update_file encodes. *)
Lemma content_round_trip (s : jsstring) :
  well_formed s = true ->
  utf8_decode (base64_decode (base64_encode (utf8_encode s))) = s.
Proof.
  intros H. rewrite base64_round_trip. apply utf8_round_trip. exact H.
Qed.

(** Reading a file: the answer of GET contents for a file entry with base64
    text. *)
Lemma get_contents_of_file :
  forall (World : Type) (octokit : Octokit World) (req : GetContentsReq)
         (w w' : World) (f : FileData) (text : string),
    repos_getContent octokit
      {| cp_owner := Some (gc_owner req); cp_repo := Some (gc_repo req);
         cp_path := Some (gc_path req); cp_ref := gc_branch req |} w
    = (Normal (File f), w') ->
    fd_content f = Some text ->
    get_contents octokit req w
    = (Normal
         (res_json 200
            (object [("content", JStr (utf8_decode (base64_decode text)));
                     ("sha", fd_sha f);
                     ("size", fd_size f);
                     ("path", fd_path f)])),
       w').
Proof.
  intros World octokit req w w' f text Hread Htext.
  unfold get_contents; run. rewrite Hread, Htext. reflexivity.
Qed.

(** C9 (amended).  (1) For every content string whose surrogates are all
    paired, decoding (base64 to text, as get_file does) what
    create_or_update_file encodes (text to base64) returns the string.
    (2) Hence, when the upstream hands back the bytes it was given, reading
    the file back returns the content string that was written.
    (3) get_file followed by create_or_update_file with the content just read,
    on the same path and branch, sends the write with the revision token of
    the file's current state and succeeds whenever the upstream accepts that
    write; the content get_file returns is always such a string, so what is
    written decodes back to it. *)
Theorem content_encoding_and_handshake :
  forall (World : Type) (octokit : Octokit World),
    (forall s : jsstring,
        well_formed s = true ->
        utf8_decode (base64_decode (base64_encode (utf8_encode s))) = s)
    /\ (forall (req : GetContentsReq) (s : jsstring) (w w' : World)
               (f : FileData) (text : string),
           well_formed s = true ->
           repos_getContent octokit
             {| cp_owner := Some (gc_owner req); cp_repo := Some (gc_repo req);
                cp_path := Some (gc_path req); cp_ref := gc_branch req |} w
           = (Normal (File f), w') ->
           fd_content f = Some text ->
           base64_decode text = base64_decode (base64_encode (utf8_encode s)) ->
           get_contents octokit req w
           = (Normal
                (res_json 200
                   (object [("content", JStr s);
                            ("sha", fd_sha f);
                            ("size", fd_size f);
                            ("path", fd_path f)])),
              w'))
    /\ (forall (req : GetContentsReq) (message : option jsstring)
               (w0 w w1 w2 : World) (f0 f : FileData) (text0 : string)
               (response : WriteData),
           let target :=
             {| cp_owner := Some (gc_owner req); cp_repo := Some (gc_repo req);
                cp_path := Some (gc_path req); cp_ref := gc_branch req |} in
           let content := utf8_decode (base64_decode text0) in
           repos_getContent octokit target w0 = (Normal (File f0), w) ->
           fd_content f0 = Some text0 ->
           repos_getContent octokit target w = (Normal (File f), w1) ->
           repos_createOrUpdateFileContents octokit
             {| wp_owner := Some (gc_owner req); wp_repo := Some (gc_repo req);
                wp_path := Some (gc_path req); wp_message := message;
                wp_content := base64_encode (utf8_encode content);
                wp_branch := gc_branch req; wp_sha := Some (fd_sha f) |} w1
           = (Normal response, w2) ->
           get_contents octokit req w0
           = (Normal
                (res_json 200
                   (object [("content", JStr content);
                            ("sha", fd_sha f0);
                            ("size", fd_size f0);
                            ("path", fd_path f0)])),
              w)
           /\ put_contents octokit
                {| pc_owner := gc_owner req; pc_repo := gc_repo req;
                   pc_path := gc_path req; pc_content := Some content;
                   pc_message := message; pc_branch := gc_branch req |} w
              = (Normal (res_json 200 (written response)), w2)
           /\ post_execute octokit
                (equivalent_invocation
                   (PutContents
                      {| pc_owner := gc_owner req; pc_repo := gc_repo req;
                         pc_path := gc_path req; pc_content := Some content;
                         pc_message := message; pc_branch := gc_branch req |}))
                w
              = (Normal (res_json 200 (object [("result", written response)])),
                 w2)
           /\ utf8_decode
                (base64_decode (base64_encode (utf8_encode content)))
              = content).
Proof.
  intros World octokit. split; [exact content_round_trip |]. split.
  - intros req s w w' f text Hwf Hread Htext Hbytes.
    rewrite (get_contents_of_file World octokit req w w' f text Hread Htext).
    rewrite Hbytes, content_round_trip by exact Hwf. reflexivity.
  - intros req message w0 w w1 w2 f0 f text0 response target content
      Hread0 Htext0 Hread Hwrite.
    subst target content.
    split; [exact (get_contents_of_file World octokit req w0 w f0 text0
                     Hread0 Htext0) |].
    split; [| split];
      [| | apply content_round_trip; apply utf8_decode_well_formed];
      unfold post_execute, put_contents; run; dispatch; run;
      rewrite Hread; cbn [data_sha]; rewrite Hwrite; reflexivity.
Qed.

Lemma content_encoding_and_handshake_witness :
  well_formed (lit "hello") = true
  /\ utf8_decode (base64_decode (base64_encode (utf8_encode (lit "hello"))))
     = lit "hello"
  /\ fst (get_contents Fixture.client read_readme Fixture.host)
     = Normal
         (res_json 200
            (object [("content", str "hello");
                     ("sha", Fixture.token_of
                               (String.append "aGVsbG8="
                                  (String (ascii_of_N 10) EmptyString)));
                     ("size", JNum 0);
                     ("path", str "README.md")]))
  /\ fst (put_contents Fixture.client write_readme Fixture.host)
     = Normal
         (res_json 200
            (written
               {| wd_commit_sha := str "c0ffee";
                  wd_content :=
                    object [("path", str "README.md");
                            ("sha", str "sha-aGVsbG8=")] |})).
Proof.
  assert (Hwf : well_formed (lit "hello") = true) by reflexivity.
  pose proof (content_encoding_and_handshake Fixture.Host Fixture.client)
    as [Hround [Hback Hshake]].
  split; [exact Hwf |].
  split; [exact (Hround (lit "hello") Hwf) |].
  split.
  - rewrite (Hback read_readme (lit "hello") Fixture.host Fixture.host
               {| fd_content :=
                    Some (String.append "aGVsbG8="
                            (String (ascii_of_N 10) EmptyString));
                  fd_sha := Fixture.token_of
                              (String.append "aGVsbG8="
                                 (String (ascii_of_N 10) EmptyString));
                  fd_size := JNum 0;
                  fd_path := str "README.md" |}
               (String.append "aGVsbG8=" (String (ascii_of_N 10) EmptyString))
               Hwf eq_refl eq_refl eq_refl).
    reflexivity.
  - pose proof (Hshake read_readme (Some (lit "update"))
                  Fixture.host Fixture.host Fixture.host
                  (snd (put_contents Fixture.client write_readme Fixture.host))
                  {| fd_content :=
                       Some (String.append "aGVsbG8="
                               (String (ascii_of_N 10) EmptyString));
                     fd_sha := Fixture.token_of
                                 (String.append "aGVsbG8="
                                    (String (ascii_of_N 10) EmptyString));
                     fd_size := JNum 0;
                     fd_path := str "README.md" |}
                  {| fd_content :=
                       Some (String.append "aGVsbG8="
                               (String (ascii_of_N 10) EmptyString));
                     fd_sha := Fixture.token_of
                                 (String.append "aGVsbG8="
                                    (String (ascii_of_N 10) EmptyString));
                     fd_size := JNum 0;
                     fd_path := str "README.md" |}
                  (String.append "aGVsbG8=" (String (ascii_of_N 10) EmptyString))
                  {| wd_commit_sha := str "c0ffee";
                     wd_content :=
                       object [("path", str "README.md");
                               ("sha", str "sha-aGVsbG8=")] |}
                  eq_refl eq_refl eq_refl eq_refl) as [_ [Hput _]].
    change write_readme with
      {| pc_owner := gc_owner read_readme; pc_repo := gc_repo read_readme;
         pc_path := gc_path read_readme;
         pc_content :=
           Some (utf8_decode
                   (base64_decode
                      (String.append "aGVsbG8="
                         (String (ascii_of_N 10) EmptyString))));
         pc_message := Some (lit "update");
         pc_branch := gc_branch read_readme |}.
    rewrite Hput. reflexivity.
Defined.

(** C9, counterexample.  A content string with an unpaired surrogate is not
    read back (it comes back as U+FFFD), and encoding is not the inverse of
    decoding: the payload of a file holding the single byte 0xFF decodes to
    U+FFFD, which encodes to another payload. *)
Lemma content_codecs_not_inverse :
  utf8_decode (base64_decode (base64_encode (utf8_encode [0xD800])))
    = [0xFFFD]
  /\ [0xFFFD] <> [0xD800]
  /\ base64_encode (utf8_encode (utf8_decode (base64_decode "/w==")))
     = "77+9"
  /\ "77+9" <> "/w==".
Proof.
  split; [vm_compute; reflexivity |].
  split; [intros H; discriminate H |].
  split; [vm_compute; reflexivity |].
  intros H. discriminate H.
Qed.

(** * Further properties of the handlers *)

(** ** Every request is answered *)

(** X1.  No REST handler lets an exception escape: every request is
    answered, with HTTP 200 and a body without an [error] property, or with
    HTTP 500 and a body that is exactly [{error: message}], or (reading
    contents only) with HTTP 400 and [{error: "Path is a directory"}]. *)
Theorem rest_always_answers :
  forall (World : Type) (octokit : Octokit World) (r : RestRequest) (w : World),
    exists (response : Response) (w' : World),
      rest octokit r w = (Normal response, w')
      /\ ((status response = 200 /\ get_prop "error" (body response) = None)
          \/ (exists m, response = rest_error m)
          \/ ((exists req, r = GetContents req)
              /\ response
                 = res_json 400 (object [("error", str "Path is a directory")]))).
Proof.
  intros World octokit r w.
  destruct r as [q | req | req | req | req]; cbn [rest];
    unfold get_repos, get_contents, put_contents, post_branches, post_pulls;
    run; upstream_cases;
    eexists; eexists; (split; [reflexivity |]);
    first
      [ left; split; [reflexivity |];
        match goal with
        | |- context [js_string ?b] => destruct b
        | _ => idtac
        end; reflexivity
      | right; left; eexists; reflexivity
      | right; right; split; [eexists; reflexivity | reflexivity] ].
Qed.

(** X2.  POST /execute answers every request whose [tool] is a string or
    is missing (the values [ExecuteBody] ranges over), with or without
    arguments: with HTTP 200 and a body [{result: ...}], or with HTTP 500 and
    a bare [{error: message}]; the latter only when the tool is
    [list_repositories].  (A [tool] that is not a string is outside this
    statement: converting it in the default case can itself throw.) *)
Theorem execute_always_answers :
  forall (World : Type) (octokit : Octokit World) (req : ExecuteBody) (w : World),
    exists (response : Response) (w' : World),
      post_execute octokit req w = (Normal response, w')
      /\ ((exists result, response = tool_answer result)
          \/ (is_tool (tool req) "list_repositories" = true
              /\ exists m, response = rest_error m)).
Proof.
  intros World octokit [t args] w. cbn [tool].
  destruct (is_tool t "list_repositories") eqn:Hlist.
  - unfold post_execute; run. rewrite Hlist.
    destruct args as [a |]; run; upstream_cases;
      eexists; eexists; (split; [reflexivity |]);
      first [ left; eexists; reflexivity
            | right; split; [reflexivity | eexists; reflexivity] ].
  - destruct (execute_inner_catch World octokit t args w Hlist)
      as [result [w' H]].
    exists (tool_answer result), w'. split; [exact H |].
    left. exists result. reflexivity.
Qed.

(** X3.  The result of each of the three writing tools has exactly one of
    two shapes: [success: true] without an [error] property, or
    [{error: message}] alone. *)
Theorem writing_tools_result_shape :
  forall (World : Type) (octokit : Octokit World) (name : string)
         (args : option Arguments) (w : World),
    In name ["create_or_update_file"; "create_branch"; "create_pull_request"] ->
    exists (result : json) (w' : World),
      post_execute octokit {| tool := Some (lit name); arguments := args |} w
      = (Normal (tool_answer result), w')
      /\ ((get_prop "success" result = Some (JBool true)
           /\ get_prop "error" result = None)
          \/ exists m, result = object [("error", JStr m)]).
Proof.
  intros World octokit name args w Hin.
  cbn [In] in Hin.
  destruct Hin as [E | [E | [E | []]]]; subst name;
    unfold post_execute; run; dispatch;
    destruct args as [a |]; run; upstream_cases;
    eexists; eexists; (split; [reflexivity |]);
    first
      [ right; eexists; reflexivity
      | left;
        match goal with
        | |- context [js_string ?b] => destruct b
        | _ => idtac
        end; split; reflexivity ].
Qed.

Lemma writing_tools_result_shape_witness :
  In "create_branch"
    ["create_or_update_file"; "create_branch"; "create_pull_request"]
  /\ exists (result : json) (w' : Fixture.Host),
       post_execute Fixture.client
         {| tool := Some (lit "create_branch"); arguments := None |}
         Fixture.host
       = (Normal (tool_answer result), w')
       /\ ((get_prop "success" result = Some (JBool true)
            /\ get_prop "error" result = None)
           \/ exists m, result = object [("error", JStr m)]).
Proof.
  assert (H : In "create_branch"
                ["create_or_update_file"; "create_branch";
                 "create_pull_request"]) by (cbn; tauto).
  split; [exact H |].
  exact (writing_tools_result_shape Fixture.Host Fixture.client
           "create_branch" None Fixture.host H).
Defined.

(** ** create_pull_request *)

(** X4.  create_pull_request makes one upstream call, with owner, repo,
    title, head and base as given and the body defaulted to the empty
    string.  When the call succeeds the answer is
    [{success: true, number, url, state}] with the three values of the created
    pull request; when it is rejected the answer is [{error: message}] with
    the upstream message unchanged (HTTP 500 on the REST route).  Both
    adapters. *)
Theorem create_pull_request_forwarding :
  forall (World : Type) (octokit : Octokit World) (w w' : World),
    (forall (a : Arguments) (o : outcome PullData),
        pulls_create octokit
          {| pl_owner := a_owner a; pl_repo := a_repo a;
             pl_title := a_title a;
             pl_body := match a_body a with Some b => b | None => [] end;
             pl_head := a_head a; pl_base := a_base a |} w
        = (o, w') ->
        post_execute octokit (invocation "create_pull_request" a) w
        = (Normal
             (match o with
              | Normal pr =>
                  tool_answer
                    (object [("success", JBool true);
                             ("number", pd_number pr);
                             ("url", pd_html_url pr);
                             ("state", pd_state pr)])
              | Throw m => tool_error m
              end),
           w'))
    /\ (forall (req : PostPullsReq) (o : outcome PullData),
           pulls_create octokit
             {| pl_owner := Some (pp_owner req); pl_repo := Some (pp_repo req);
                pl_title := pp_title req;
                pl_body := match pp_body req with Some b => b | None => [] end;
                pl_head := pp_head req; pl_base := pp_base req |} w
           = (o, w') ->
           post_pulls octokit req w
           = (Normal
                (match o with
                 | Normal pr =>
                     res_json 200
                       (object [("success", JBool true);
                                ("number", pd_number pr);
                                ("url", pd_html_url pr);
                                ("state", pd_state pr)])
                 | Throw m => rest_error m
                 end),
              w')).
Proof.
  intros World octokit w w'.
  assert (D : forall x : option jsstring,
             or_default x (lit EmptyString)
             = match x with Some b => b | None => [] end).
  { intros [[| u s] |]; reflexivity. }
  split; intros x o H; unfold post_execute, post_pulls; run; dispatch; run;
    rewrite D, H; destruct o; reflexivity.
Qed.

Lemma create_pull_request_forwarding_witness :
  fst (post_execute Fixture.client
         (invocation "create_pull_request" pull_request_arguments)
         Fixture.host)
  = Normal
      (tool_answer
         (object [("success", JBool true);
                  ("number", JNum 1);
                  ("url", str "https://github.com/octo/demo/pull/1");
                  ("state", str "open")])).
Proof.
  rewrite (proj1 (create_pull_request_forwarding Fixture.Host Fixture.client
                    Fixture.host
                    (snd (pulls_create Fixture.client
                            {| pl_owner := Some (lit "octo");
                               pl_repo := Some (lit "demo");
                               pl_title := Some (lit "Add notes");
                               pl_body := [];
                               pl_head := Some (lit "dev");
                               pl_base := Some (lit "main") |} Fixture.host)))
             pull_request_arguments
             (Normal {| pd_number := JNum 1;
                        pd_html_url := str "https://github.com/octo/demo/pull/1";
                        pd_state := str "open" |})
             eq_refl).
  reflexivity.
Defined.

(** ** create_branch: failures *)

(** X5.  create_branch stops at the first upstream call that is rejected
    and answers [{error: message}] with that call's message: a rejected
    [repos.get] (also when [from_branch] is given), a rejected [git.getRef],
    or a rejected [git.createRef]; the upstream is left as that call left
    it.  Both adapters. *)
Theorem create_branch_stops_at_first_rejection :
  forall (World : Type) (octokit : Octokit World) (req : PostBranchesReq)
         (w : World),
    let by_rest := post_branches octokit req w in
    let by_tool :=
      post_execute octokit (equivalent_invocation (PostBranches req)) w in
    let get_repository :=
      repos_get octokit
        {| rp_owner := Some (pb_owner req); rp_repo := Some (pb_repo req) |} in
    let get_head := fun (repository : RepoData) =>
      git_getRef octokit
        {| gr_owner := Some (pb_owner req); gr_repo := Some (pb_repo req);
           gr_ref := lit "heads/"
                       ++ or_default (pb_from_branch req)
                            (rd_default_branch repository) |} in
    let create := fun (head : RefData) =>
      git_createRef octokit
        {| cr_owner := Some (pb_owner req); cr_repo := Some (pb_repo req);
           cr_ref := lit "refs/heads/" ++ template (pb_branch req);
           cr_sha := ref_object_sha head |} in
    (forall m w1,
        get_repository w = (Throw m, w1) ->
        by_rest = (Normal (rest_error m), w1)
        /\ by_tool = (Normal (tool_error m), w1))
    /\ (forall repository m w1 w2,
           get_repository w = (Normal repository, w1) ->
           get_head repository w1 = (Throw m, w2) ->
           by_rest = (Normal (rest_error m), w2)
           /\ by_tool = (Normal (tool_error m), w2))
    /\ (forall repository head m w1 w2 w3,
           get_repository w = (Normal repository, w1) ->
           get_head repository w1 = (Normal head, w2) ->
           create head w2 = (Throw m, w3) ->
           by_rest = (Normal (rest_error m), w3)
           /\ by_tool = (Normal (tool_error m), w3)).
Proof.
  intros World octokit req w by_rest by_tool get_repository get_head create.
  subst by_rest by_tool get_repository get_head create.
  split; [| split].
  - intros m w1 H1.
    split; unfold post_execute, post_branches; run; dispatch; run;
      rewrite H1; reflexivity.
  - intros repository m w1 w2 H1 H2.
    split; unfold post_execute, post_branches; run; dispatch; run;
      rewrite H1, H2; reflexivity.
  - intros repository head m w1 w2 w3 H1 H2 H3.
    split; unfold post_execute, post_branches; run; dispatch; run;
      rewrite H1, H2, H3; reflexivity.
Qed.

Lemma create_branch_stops_at_first_rejection_witness :
  git_getRef Fixture.client
    {| gr_owner := Some (lit "octo"); gr_repo := Some (lit "demo");
       gr_ref := lit "heads/" ++ or_default (Some (lit "gone")) (lit "main") |}
    Fixture.host
  = (Throw (lit "Not Found"), Fixture.host)
  /\ post_branches Fixture.client
       {| pb_owner := lit "octo"; pb_repo := lit "demo";
          pb_branch := Some (lit "dev");
          pb_from_branch := Some (lit "gone") |} Fixture.host
     = (Normal (rest_error (lit "Not Found")), Fixture.host).
Proof.
  assert (H : git_getRef Fixture.client
                {| gr_owner := Some (lit "octo"); gr_repo := Some (lit "demo");
                   gr_ref := lit "heads/"
                               ++ or_default (Some (lit "gone")) (lit "main") |}
                Fixture.host
              = (Throw (lit "Not Found"), Fixture.host)) by reflexivity.
  split; [exact H |].
  exact (proj1
           (proj1 (proj2 (create_branch_stops_at_first_rejection Fixture.Host
                            Fixture.client
                            {| pb_owner := lit "octo"; pb_repo := lit "demo";
                               pb_branch := Some (lit "dev");
                               pb_from_branch := Some (lit "gone") |}
                            Fixture.host))
              {| rd_default_branch := lit "main" |} (lit "Not Found")
              Fixture.host Fixture.host eq_refl H)).
Defined.

(** ** get_file: what is returned for a file *)

Lemma whitespace_is_skipped (c : ascii) :
  is_whitespace c = true ->
  unbase64 c = None /\ (N_of_ascii c =? 61) = false.
Proof.
  unfold is_whitespace, unbase64. cbv zeta. intros H.
  repeat (apply orb_true_iff in H; destruct H as [H | H]);
    apply N.eqb_eq in H; rewrite H; split; reflexivity.
Qed.

Lemma base64_sextets_strip (s : string) :
  base64_sextets (strip_whitespace s) = base64_sextets s.
Proof.
  induction s as [| c rest IH]; [reflexivity |].
  cbn [strip_whitespace base64_sextets].
  destruct (is_whitespace c) eqn:Hc.
  - destruct (whitespace_is_skipped c Hc) as [Hu He].
    rewrite Hu, He. exact IH.
  - cbn [base64_sextets]. rewrite IH. reflexivity.
Qed.

Lemma get_file_of_file :
  forall (World : Type) (octokit : Octokit World) (a : Arguments)
         (w w' : World) (f : FileData) (text : string),
    repos_getContent octokit
      {| cp_owner := a_owner a; cp_repo := a_repo a;
         cp_path := a_path a; cp_ref := a_branch a |} w
    = (Normal (File f), w') ->
    fd_content f = Some text ->
    post_execute octokit (invocation "get_file" a) w
    = (Normal
         (tool_answer
            (object [("content", JStr (utf8_decode (base64_decode text)));
                     ("sha", fd_sha f);
                     ("size", fd_size f);
                     ("path", fd_path f)])),
       w').
Proof.
  intros World octokit a w w' f text Hread Htext.
  unfold post_execute; run; dispatch; run. rewrite Hread, Htext. reflexivity.
Qed.

(** X6.  Whatever base64 text the upstream delivers for a file, get_file
    answers HTTP 200 with [{content, sha, size, path}], where [sha], [size]
    and [path] are the upstream's and [content] is a string without unpaired
    surrogates; a payload that is not UTF-8 is not an error.  Both
    adapters. *)
Theorem get_file_content_is_well_formed :
  forall (World : Type) (octokit : Octokit World) (w w' : World)
         (f : FileData) (text : string),
    fd_content f = Some text ->
    exists content : jsstring,
      well_formed content = true
      /\ (forall a : Arguments,
             repos_getContent octokit
               {| cp_owner := a_owner a; cp_repo := a_repo a;
                  cp_path := a_path a; cp_ref := a_branch a |} w
             = (Normal (File f), w') ->
             post_execute octokit (invocation "get_file" a) w
             = (Normal
                  (tool_answer
                     (object [("content", JStr content);
                              ("sha", fd_sha f);
                              ("size", fd_size f);
                              ("path", fd_path f)])),
                w'))
      /\ (forall req : GetContentsReq,
             repos_getContent octokit
               {| cp_owner := Some (gc_owner req); cp_repo := Some (gc_repo req);
                  cp_path := Some (gc_path req); cp_ref := gc_branch req |} w
             = (Normal (File f), w') ->
             get_contents octokit req w
             = (Normal
                  (res_json 200
                     (object [("content", JStr content);
                              ("sha", fd_sha f);
                              ("size", fd_size f);
                              ("path", fd_path f)])),
                w')).
Proof.
  intros World octokit w w' f text Htext.
  exists (utf8_decode (base64_decode text)).
  split; [apply utf8_decode_well_formed |]. split.
  - intros a Hread.
    exact (get_file_of_file World octokit a w w' f text Hread Htext).
  - intros req Hread.
    exact (get_contents_of_file World octokit req w w' f text Hread Htext).
Qed.

Lemma get_file_content_is_well_formed_witness :
  exists content : jsstring,
    well_formed content = true
    /\ get_contents Fixture.client read_readme Fixture.host
       = (Normal
            (res_json 200
               (object [("content", JStr content);
                        ("sha", Fixture.token_of readme_text);
                        ("size", JNum 0);
                        ("path", str "README.md")])),
          Fixture.host).
Proof.
  destruct (get_file_content_is_well_formed Fixture.Host Fixture.client
              Fixture.host Fixture.host
              {| fd_content := Some readme_text;
                 fd_sha := Fixture.token_of readme_text;
                 fd_size := JNum 0;
                 fd_path := str "README.md" |}
              readme_text eq_refl)
    as [content [Hwf [_ Hrest]]].
  exists content. split; [exact Hwf |].
  exact (Hrest read_readme eq_refl).
Defined.

(** X7.  White space in the upstream's base64 text (the line breaks the
    contents API inserts) does not change what get_file returns: the content
    is the decoding of the text with spaces, tabs, line feeds and carriage
    returns removed.  Both adapters. *)
Theorem get_file_ignores_line_breaks :
  forall (World : Type) (octokit : Octokit World) (w w' : World)
         (f : FileData) (text : string),
    fd_content f = Some text ->
    let answer :=
      object [("content",
               JStr (utf8_decode (base64_decode (strip_whitespace text))));
              ("sha", fd_sha f);
              ("size", fd_size f);
              ("path", fd_path f)] in
    (forall a : Arguments,
        repos_getContent octokit
          {| cp_owner := a_owner a; cp_repo := a_repo a;
             cp_path := a_path a; cp_ref := a_branch a |} w
        = (Normal (File f), w') ->
        post_execute octokit (invocation "get_file" a) w
        = (Normal (tool_answer answer), w'))
    /\ (forall req : GetContentsReq,
           repos_getContent octokit
             {| cp_owner := Some (gc_owner req); cp_repo := Some (gc_repo req);
                cp_path := Some (gc_path req); cp_ref := gc_branch req |} w
           = (Normal (File f), w') ->
           get_contents octokit req w = (Normal (res_json 200 answer), w')).
Proof.
  intros World octokit w w' f text Htext answer. subst answer.
  unfold base64_decode. rewrite base64_sextets_strip.
  split.
  - intros a Hread.
    exact (get_file_of_file World octokit a w w' f text Hread Htext).
  - intros req Hread.
    exact (get_contents_of_file World octokit req w w' f text Hread Htext).
Qed.

Lemma get_file_ignores_line_breaks_witness :
  strip_whitespace readme_text = "aGVsbG8="
  /\ get_contents Fixture.client read_readme Fixture.host
     = (Normal
          (res_json 200
             (object [("content", JStr (utf8_decode (base64_decode "aGVsbG8=")));
                      ("sha", Fixture.token_of readme_text);
                      ("size", JNum 0);
                      ("path", str "README.md")])),
        Fixture.host).
Proof.
  split; [reflexivity |].
  exact (proj2 (get_file_ignores_line_breaks Fixture.Host Fixture.client
                  Fixture.host Fixture.host
                  {| fd_content := Some readme_text;
                     fd_sha := Fixture.token_of readme_text;
                     fd_size := JNum 0;
                     fd_path := str "README.md" |}
                  readme_text eq_refl)
           read_readme eq_refl).
Defined.

(** X8.  An entry that is not a list and carries no [content] (a submodule)
    is not returned as a file with empty content: [Buffer.from] throws, and
    get_file answers with that error, HTTP 500 on the REST route and inside
    [{result: ...}] on POST /execute. *)
Theorem get_file_without_content :
  forall (World : Type) (octokit : Octokit World) (w w' : World) (f : FileData),
    fd_content f = None ->
    (forall a : Arguments,
        repos_getContent octokit
          {| cp_owner := a_owner a; cp_repo := a_repo a;
             cp_path := a_path a; cp_ref := a_branch a |} w
        = (Normal (File f), w') ->
        post_execute octokit (invocation "get_file" a) w
        = (Normal (tool_error buffer_type_error), w'))
    /\ (forall req : GetContentsReq,
           repos_getContent octokit
             {| cp_owner := Some (gc_owner req); cp_repo := Some (gc_repo req);
                cp_path := Some (gc_path req); cp_ref := gc_branch req |} w
           = (Normal (File f), w') ->
           get_contents octokit req w
           = (Normal (rest_error buffer_type_error), w')).
Proof.
  intros World octokit w w' f Hnone.
  split; intros x Hread; unfold post_execute, get_contents; run; dispatch; run;
    rewrite Hread, Hnone; reflexivity.
Qed.

Lemma get_file_without_content_witness :
  get_contents submodule_client read_submodule Fixture.host
  = (Normal (rest_error buffer_type_error), Fixture.host).
Proof.
  exact (proj2 (get_file_without_content Fixture.Host submodule_client
                  Fixture.host Fixture.host
                  {| fd_content := None; fd_sha := str "5ub";
                     fd_size := JNum 0; fd_path := str "vendor/lib" |}
                  eq_refl)
           read_submodule eq_refl).
Defined.

(** ** POST /execute without an arguments object *)

(** X9.  When the request has no [arguments], the four tools that read
    repository arguments answer HTTP 200 with [{result: {error: message}}]
    for one and the same message, without calling the upstream: the answer
    does not depend on the client and the upstream state is untouched. *)
Theorem execute_without_arguments :
  exists m : jsstring,
    forall (World : Type) (octokit : Octokit World) (name : string) (w : World),
      In name ["get_file"; "create_or_update_file"; "create_branch";
               "create_pull_request"] ->
      post_execute octokit {| tool := Some (lit name); arguments := None |} w
      = (Normal (tool_error m), w).
Proof.
  exists (lit "Cannot read properties of undefined (reading 'owner')").
  intros World octokit name w Hin. cbn [In] in Hin.
  destruct Hin as [E | [E | [E | [E | []]]]]; subst name;
    unfold post_execute; run; dispatch; reflexivity.
Qed.

Lemma execute_without_arguments_witness :
  In "create_branch"
    ["get_file"; "create_or_update_file"; "create_branch";
     "create_pull_request"]
  /\ exists m : jsstring,
       post_execute Fixture.client
         {| tool := Some (lit "create_branch"); arguments := None |}
         Fixture.locked_out
       = (Normal (tool_error m), Fixture.locked_out).
Proof.
  assert (H : In "create_branch"
                ["get_file"; "create_or_update_file"; "create_branch";
                 "create_pull_request"]) by (cbn; tauto).
  split; [exact H |].
  destruct execute_without_arguments as [m Hm].
  exists m.
  exact (Hm Fixture.Host Fixture.client "create_branch" Fixture.locked_out H).
Defined.

(** ** The payload written and read back *)

Lemma base64_char_is_canonical (n : N) :
  n < 64 -> is_base64_char (base64_char n) = true.
Proof.
  intros H.
  assert (A : forallb (fun k => is_base64_char (base64_char k))
                (map N.of_nat (seq 0 64)) = true) by (vm_compute; reflexivity).
  rewrite forallb_forall in A. exact (A n (below_64 n H)).
Qed.

Lemma base64_encode_canonical_bounded (n : nat) :
  forall bs : list byte,
    (List.length bs <= n)%nat ->
    string_forallb is_base64_char (base64_encode bs) = true
    /\ String.length (base64_encode bs)
       = (4 * ((List.length bs + 2) / 3))%nat.
Proof.
  induction n as [| n IH]; intros bs Hlen.
  - destruct bs; [split; reflexivity | cbn in Hlen; lia].
  - destruct bs as [| a [| b [| c rest]]].
    + split; reflexivity.
    + pose proof (Byte.to_N_bounded a).
      cbn [base64_encode string_forallb].
      rewrite !base64_char_is_canonical by arith. split; reflexivity.
    + pose proof (Byte.to_N_bounded a). pose proof (Byte.to_N_bounded b).
      cbn [base64_encode string_forallb].
      rewrite !base64_char_is_canonical by arith. split; reflexivity.
    + pose proof (Byte.to_N_bounded a). pose proof (Byte.to_N_bounded b).
      pose proof (Byte.to_N_bounded c).
      destruct (IH rest) as [Hc Hl]; [cbn in Hlen; lia |].
      cbn [base64_encode string_forallb String.length List.length].
      rewrite !base64_char_is_canonical by arith.
      rewrite Hc, Hl. split; [reflexivity |].
      replace (S (S (S (List.length rest))) + 2)%nat
        with (List.length rest + 2 + 1 * 3)%nat by lia.
      rewrite Nat.div_add by lia. lia.
Qed.

(** X10.  The text create_or_update_file sends as [content] is canonical
    base64: only letters, digits, [+], [/] and [=] (no line break), four
    characters for every three bytes of the UTF-8 form of the string, and it
    decodes to exactly those bytes. *)
Theorem written_payload_is_canonical :
  forall content : jsstring,
    let bytes := utf8_encode content in
    let payload := base64_encode bytes in
    string_forallb is_base64_char payload = true
    /\ String.length payload = (4 * ((List.length bytes + 2) / 3))%nat
    /\ base64_decode payload = bytes.
Proof.
  intros content bytes payload. subst payload.
  destruct (base64_encode_canonical_bounded (List.length bytes) bytes)
    as [H1 H2]; [lia |].
  split; [exact H1 |]. split; [exact H2 |]. apply base64_round_trip.
Qed.

Lemma utf8_replacement (rest : list byte) :
  utf8_decode_from utf8_initial (utf8_of_code_point 0xFFFD ++ rest)
  = 0xFFFD :: utf8_decode_from utf8_initial rest.
Proof.
  rewrite utf8_decode_code_point by (unfold scalar_value; lia). reflexivity.
Qed.

Lemma utf8_sanitize_bounded (n : nat) :
  forall s : jsstring,
    (List.length s <= n)%nat -> Forall (fun u => u < 0x10000) s ->
    utf8_decode_from utf8_initial (utf8_encode s) = to_well_formed s.
Proof.
  induction n as [| n IH]; intros s Hlen Hs.
  - destruct s; [reflexivity | cbn in Hlen; lia].
  - destruct s as [| u rest]; [reflexivity |].
    inversion Hs as [| ? ? Hu Hrest]; subst.
    cbn [utf8_encode to_well_formed].
    destruct (is_high_surrogate u) eqn:Hh.
    + destruct rest as [| v rest'].
      * rewrite <- (app_nil_r (utf8_of_code_point 0xFFFD)).
        rewrite utf8_replacement. reflexivity.
      * inversion Hrest as [| ? ? Hv Hrest']; subst.
        destruct (is_low_surrogate v) eqn:Hl.
        -- apply high_surrogate_range in Hh. apply low_surrogate_range in Hl.
           rewrite utf8_decode_code_point by (unfold scalar_value; lia).
           rewrite IH by first [exact Hrest' | cbn in Hlen; lia].
           unfold units_of_code_point. settle_tests.
           cbn [app]. f_equal; [arith | f_equal; arith].
        -- rewrite utf8_replacement.
           rewrite IH by first [exact Hrest | cbn in Hlen; cbn; lia].
           reflexivity.
    + destruct (is_low_surrogate u) eqn:Hl.
      * rewrite utf8_replacement.
        rewrite IH by first [exact Hrest | cbn in Hlen; lia]. reflexivity.
      * apply not_high_surrogate in Hh. apply not_low_surrogate in Hl.
        rewrite utf8_decode_code_point by (unfold scalar_value; lia).
        rewrite IH by first [exact Hrest | cbn in Hlen; lia].
        unfold units_of_code_point. settle_tests. reflexivity.
Qed.

(** [Buffer.from(s).toString('utf-8')] is [s.toWellFormed()]. *)
Lemma utf8_sanitize (s : jsstring) :
  Forall (fun u => u < 0x10000) s ->
  utf8_decode (utf8_encode s) = to_well_formed s.
Proof.
  intros H. apply (utf8_sanitize_bounded (List.length s)); [lia | exact H].
Qed.

(** X11.  What is read back after a write, for every content string: when
    the upstream hands back the bytes it was given for a string [s], get_file
    returns [s] with every unpaired surrogate replaced by U+FFFD and every
    other code unit unchanged.  Both adapters. *)
Theorem read_back_replaces_unpaired_surrogates :
  forall (World : Type) (octokit : Octokit World) (s : jsstring)
         (w w' : World) (f : FileData) (text : string),
    Forall (fun u => u < 0x10000) s ->
    fd_content f = Some text ->
    base64_decode text = base64_decode (base64_encode (utf8_encode s)) ->
    let answer :=
      object [("content", JStr (to_well_formed s));
              ("sha", fd_sha f);
              ("size", fd_size f);
              ("path", fd_path f)] in
    (forall a : Arguments,
        repos_getContent octokit
          {| cp_owner := a_owner a; cp_repo := a_repo a;
             cp_path := a_path a; cp_ref := a_branch a |} w
        = (Normal (File f), w') ->
        post_execute octokit (invocation "get_file" a) w
        = (Normal (tool_answer answer), w'))
    /\ (forall req : GetContentsReq,
           repos_getContent octokit
             {| cp_owner := Some (gc_owner req); cp_repo := Some (gc_repo req);
                cp_path := Some (gc_path req); cp_ref := gc_branch req |} w
           = (Normal (File f), w') ->
           get_contents octokit req w = (Normal (res_json 200 answer), w')).
Proof.
  intros World octokit s w w' f text Hs Htext Hbytes answer. subst answer.
  rewrite <- (utf8_sanitize s Hs), <- (base64_round_trip (utf8_encode s)).
  rewrite <- Hbytes.
  split.
  - intros a Hread.
    exact (get_file_of_file World octokit a w w' f text Hread Htext).
  - intros req Hread.
    exact (get_contents_of_file World octokit req w w' f text Hread Htext).
Qed.

Lemma read_back_replaces_unpaired_surrogates_witness :
  Forall (fun u => u < 0x10000) [0x61; 0xD800]
  /\ to_well_formed [0x61; 0xD800] = [0x61; 0xFFFD]
  /\ fst (get_contents Fixture.client read_notes
            (snd (put_contents Fixture.client write_unpaired Fixture.host)))
     = Normal
         (res_json 200
            (object [("content", JStr (to_well_formed [0x61; 0xD800]));
                     ("sha", Fixture.token_of "Ye+/vQ==");
                     ("size", JNum 0);
                     ("path", str "notes.txt")])).
Proof.
  assert (Hs : Forall (fun u => u < 0x10000) [0x61; 0xD800]).
  { repeat constructor. }
  split; [exact Hs |]. split; [reflexivity |].
  rewrite (proj2 (read_back_replaces_unpaired_surrogates Fixture.Host
                    Fixture.client [0x61; 0xD800]
                    (snd (put_contents Fixture.client write_unpaired
                            Fixture.host))
                    (snd (put_contents Fixture.client write_unpaired
                            Fixture.host))
                    {| fd_content := Some "Ye+/vQ==";
                       fd_sha := Fixture.token_of "Ye+/vQ==";
                       fd_size := JNum 0;
                       fd_path := str "notes.txt" |}
                    "Ye+/vQ==" Hs eq_refl eq_refl)
             read_notes eq_refl).
  reflexivity.
Defined.

(** ** Arguments and descriptors *)

(** X12.  A tool reads no argument that its descriptor does not declare:
    two [arguments] objects that agree on the arguments declared in the
    tool's [inputSchema.properties] get the same answer and leave the
    upstream in the same state. *)
Theorem tools_read_declared_arguments_only :
  forall (World : Type) (octokit : Octokit World) (t : json) (name : jsstring)
         (a a' : Arguments) (w : World),
    In t sse_tools ->
    tool_name t = Some (JStr name) ->
    (forall k, In k (declared_arguments t) ->
               argument_named k a = argument_named k a') ->
    post_execute octokit {| tool := Some name; arguments := Some a |} w
    = post_execute octokit {| tool := Some name; arguments := Some a' |} w.
Proof.
  intros World octokit t name a a' w Hin Hname Hagree.
  assert (F : forall k : string,
             In (lit k) (declared_arguments t) ->
             argument_named (lit k) a = argument_named (lit k) a').
  { intros k Hk. apply Hagree. exact Hk. }
  unfold sse_tools in Hin. cbn [In] in Hin.
  destruct Hin as [E | [E | [E | [E | [E | []]]]]]; subst t;
    vm_compute in Hname; injection Hname as Hname; subst name.
  - pose proof (F "visibility" ltac:(vm_compute; tauto)) as Hv.
    change (a_visibility a = a_visibility a') in Hv.
    change (post_execute octokit (invocation "list_repositories" a) w
            = post_execute octokit (invocation "list_repositories" a') w).
    unfold post_execute; run; dispatch; run. rewrite Hv. reflexivity.
  - pose proof (F "owner" ltac:(vm_compute; tauto)) as Ho.
    pose proof (F "repo" ltac:(vm_compute; tauto)) as Hr.
    pose proof (F "path" ltac:(vm_compute; tauto)) as Hp.
    pose proof (F "branch" ltac:(vm_compute; tauto)) as Hb.
    change (a_owner a = a_owner a') in Ho.
    change (a_repo a = a_repo a') in Hr.
    change (a_path a = a_path a') in Hp.
    change (a_branch a = a_branch a') in Hb.
    change (post_execute octokit (invocation "get_file" a) w
            = post_execute octokit (invocation "get_file" a') w).
    unfold post_execute; run; dispatch; run.
    rewrite Ho, Hr, Hp, Hb. reflexivity.
  - pose proof (F "owner" ltac:(vm_compute; tauto)) as Ho.
    pose proof (F "repo" ltac:(vm_compute; tauto)) as Hr.
    pose proof (F "path" ltac:(vm_compute; tauto)) as Hp.
    pose proof (F "branch" ltac:(vm_compute; tauto)) as Hb.
    pose proof (F "content" ltac:(vm_compute; tauto)) as Hc.
    pose proof (F "message" ltac:(vm_compute; tauto)) as Hm.
    change (a_owner a = a_owner a') in Ho.
    change (a_repo a = a_repo a') in Hr.
    change (a_path a = a_path a') in Hp.
    change (a_branch a = a_branch a') in Hb.
    change (a_content a = a_content a') in Hc.
    change (a_message a = a_message a') in Hm.
    change (post_execute octokit (invocation "create_or_update_file" a) w
            = post_execute octokit (invocation "create_or_update_file" a') w).
    unfold post_execute; run; dispatch; run.
    rewrite Ho, Hr, Hp, Hb, Hc, Hm. reflexivity.
  - pose proof (F "owner" ltac:(vm_compute; tauto)) as Ho.
    pose proof (F "repo" ltac:(vm_compute; tauto)) as Hr.
    pose proof (F "branch" ltac:(vm_compute; tauto)) as Hb.
    pose proof (F "from_branch" ltac:(vm_compute; tauto)) as Hf.
    change (a_owner a = a_owner a') in Ho.
    change (a_repo a = a_repo a') in Hr.
    change (a_branch a = a_branch a') in Hb.
    change (a_from_branch a = a_from_branch a') in Hf.
    change (post_execute octokit (invocation "create_branch" a) w
            = post_execute octokit (invocation "create_branch" a') w).
    unfold post_execute; run; dispatch; run.
    rewrite Ho, Hr, Hb, Hf. reflexivity.
  - pose proof (F "owner" ltac:(vm_compute; tauto)) as Ho.
    pose proof (F "repo" ltac:(vm_compute; tauto)) as Hr.
    pose proof (F "title" ltac:(vm_compute; tauto)) as Ht.
    pose proof (F "body" ltac:(vm_compute; tauto)) as Hb.
    pose proof (F "head" ltac:(vm_compute; tauto)) as Hh.
    pose proof (F "base" ltac:(vm_compute; tauto)) as Hs.
    change (a_owner a = a_owner a') in Ho.
    change (a_repo a = a_repo a') in Hr.
    change (a_title a = a_title a') in Ht.
    change (a_body a = a_body a') in Hb.
    change (a_head a = a_head a') in Hh.
    change (a_base a = a_base a') in Hs.
    change (post_execute octokit (invocation "create_pull_request" a) w
            = post_execute octokit (invocation "create_pull_request" a') w).
    unfold post_execute; run; dispatch; run.
    rewrite Ho, Hr, Ht, Hb, Hh, Hs. reflexivity.
Qed.

Lemma tools_read_declared_arguments_only_witness :
  In get_file_descriptor sse_tools
  /\ tool_name get_file_descriptor = Some (JStr (lit "get_file"))
  /\ post_execute Fixture.client
       {| tool := Some (lit "get_file");
          arguments := Some (readme_arguments (Some (lit "ignored"))) |}
       Fixture.host
     = post_execute Fixture.client
         {| tool := Some (lit "get_file");
            arguments := Some (readme_arguments None) |}
         Fixture.host.
Proof.
  assert (Hin : In get_file_descriptor sse_tools).
  { right. left. reflexivity. }
  assert (Hname : tool_name get_file_descriptor = Some (JStr (lit "get_file")))
    by reflexivity.
  split; [exact Hin |]. split; [exact Hname |].
  apply (tools_read_declared_arguments_only Fixture.Host Fixture.client
           get_file_descriptor (lit "get_file")
           (readme_arguments (Some (lit "ignored"))) (readme_arguments None)
           Fixture.host Hin Hname).
  intros k Hk. vm_compute in Hk.
  destruct Hk as [E | [E | [E | [E | []]]]]; subst k; reflexivity.
Defined.

(** ** JSON text *)

Lemma printable_app (a b : jsstring) :
  printable a -> printable b -> printable (a ++ b).
Proof. intros Ha Hb. apply Forall_app. split; assumption. Qed.

Lemma printable_check (s : jsstring) :
  forallb (fun u => 32 <=? u) s = true -> printable s.
Proof.
  intros H. apply Forall_forall. intros u Hu.
  rewrite forallb_forall in H. apply N.leb_le. exact (H u Hu).
Qed.

Lemma hex_digit_printable (n : N) : 32 <= hex_digit n.
Proof. unfold hex_digit. destruct (n <? 10); lia. Qed.

Lemma unicode_escape_printable (u : N) : printable (unicode_escape u).
Proof.
  unfold unicode_escape, printable.
  repeat (constructor; [first [apply hex_digit_printable | lia] |]).
  constructor.
Qed.

Lemma escape_unit_printable (u : N) : printable (escape_unit u).
Proof.
  unfold escape_unit.
  repeat match goal with
    | |- context [if ?c then _ else _] =>
        let H := fresh in destruct c eqn:H
    end;
    try (apply printable_check; reflexivity);
    try apply unicode_escape_printable.
  match goal with
  | H : (u <? 32) = false |- _ =>
      apply N.ltb_ge in H; constructor; [exact H | constructor]
  end.
Qed.

Lemma quote_units_printable_bounded (n : nat) :
  forall s : jsstring, (List.length s <= n)%nat -> printable (quote_units s).
Proof.
  induction n as [| n IH]; intros s Hlen.
  - destruct s; [constructor | cbn in Hlen; lia].
  - destruct s as [| u rest]; [constructor |].
    cbn [quote_units].
    destruct (is_high_surrogate u) eqn:Hh.
    + destruct rest as [| v rest']; [apply unicode_escape_printable |].
      destruct (is_low_surrogate v) eqn:Hl.
      * apply high_surrogate_range in Hh. apply low_surrogate_range in Hl.
        constructor; [lia |]. constructor; [lia |].
        apply IH. cbn in Hlen. lia.
      * apply printable_app; [apply unicode_escape_printable |].
        apply IH. cbn in Hlen. cbn. lia.
    + destruct (is_low_surrogate u).
      * apply printable_app; [apply unicode_escape_printable |].
        apply IH. cbn in Hlen. lia.
      * apply printable_app; [apply escape_unit_printable |].
        apply IH. cbn in Hlen. lia.
Qed.

Lemma quote_printable (s : jsstring) : printable (quote s).
Proof.
  unfold quote. apply printable_app; [apply printable_check; reflexivity |].
  apply printable_app;
    [apply (quote_units_printable_bounded (List.length s)); lia
    | apply printable_check; reflexivity].
Qed.

Lemma digits_printable (d : Decimal.uint) :
  printable (lit (NilEmpty.string_of_uint d)).
Proof.
  induction d; cbn [NilEmpty.string_of_uint]; [constructor | ..];
    match goal with
    | |- printable (lit (String ?c ?r)) =>
        change (lit (String c r)) with (N_of_ascii c :: lit r)
    end;
    (constructor; [vm_compute; discriminate | assumption]).
Qed.

Lemma number_to_string_printable (n : Z) : printable (number_to_string n).
Proof.
  unfold number_to_string, NilZero.string_of_int, NilZero.string_of_uint.
  destruct (Z.to_int n) as [d | d]; destruct d;
    first [ apply printable_check; reflexivity
          | apply digits_printable
          | change (lit (String ?c ?r)) with (N_of_ascii c :: lit r);
            constructor;
            [vm_compute; discriminate
            | first [apply printable_check; reflexivity
                    | apply digits_printable]] ].
Qed.

(** The text [JSON.stringify] produces holds no control character: it is a
    single line. *)
Lemma JSON_stringify_printable : forall v : json, printable (JSON_stringify v).
Proof.
  fix IH 1. intros v.
  destruct v as [| [|] | n | s | items | fields]; cbn [JSON_stringify].
  - apply printable_check; reflexivity.
  - apply printable_check; reflexivity.
  - apply printable_check; reflexivity.
  - apply number_to_string_printable.
  - apply quote_printable.
  - apply printable_app; [apply printable_check; reflexivity |].
    apply printable_app; [| apply printable_check; reflexivity].
    induction items as [| x r IHr]; [constructor |].
    destruct r as [| y r'].
    + apply IH.
    + apply printable_app; [apply IH |].
      apply printable_app; [apply printable_check; reflexivity | exact IHr].
  - apply printable_app; [apply printable_check; reflexivity |].
    apply printable_app; [| apply printable_check; reflexivity].
    induction fields as [| [k x] r IHr]; [constructor |].
    destruct r as [| y r'].
    + apply printable_app; [apply quote_printable |].
      apply printable_app; [apply printable_check; reflexivity | apply IH].
    + apply printable_app; [apply quote_printable |].
      apply printable_app; [apply printable_check; reflexivity |].
      apply printable_app; [apply IH |].
      apply printable_app; [apply printable_check; reflexivity | exact IHr].
Qed.

(** ** The event stream *)

Lemma sse_run_closed (events : list SseEvent) :
  forall c, keepAlive c = false -> sse_run c events = c.
Proof.
  induction events as [| e rest IH]; intros c Hc; [reflexivity |].
  cbn [sse_run fold_left]. fold (sse_run (sse_on c e) rest).
  destruct e; cbn [sse_on].
  - rewrite Hc. apply IH. exact Hc.
  - rewrite IH by reflexivity. destruct c as [l k]. cbn in Hc. subst k.
    reflexivity.
Qed.

Lemma sse_run_chunks (events : list SseEvent) :
  forall c,
    keepAlive c = true ->
    chunks (sse_run c events)
    = chunks c ++ repeat keepalive_comment (fired_before_close events).
Proof.
  induction events as [| e rest IH]; intros c Hc.
  - cbn. rewrite app_nil_r. reflexivity.
  - cbn [sse_run fold_left]. fold (sse_run (sse_on c e) rest).
    destruct e; cbn [sse_on fired_before_close repeat].
    + rewrite Hc. rewrite IH by reflexivity.
      cbn [chunks]. rewrite <- app_assoc. reflexivity.
    + rewrite sse_run_closed by reflexivity.
      cbn [chunks]. rewrite app_nil_r. reflexivity.
Qed.

(** X13.  The stream of GET /sse is one discovery event followed by
    keep-alive comments only: the first chunk is ["data: "], one line of JSON
    text and a blank line; after it, one keep-alive comment is written each
    time the interval fires until the request closes, and nothing is written
    once the request has closed. *)
Theorem sse_stream_shape :
  forall (World : Type) (w : World) (events : list SseEvent),
    exists (opening : SseOpening) (payload : jsstring),
      get_sse w = (Normal opening, w)
      /\ sse_first_chunk opening = lit "data: " ++ payload ++ [10; 10]
      /\ printable payload
      /\ chunks (sse_run (sse_connect opening) events)
         = sse_first_chunk opening
             :: repeat keepalive_comment (fired_before_close events)
      /\ (forall after,
             chunks (sse_run (sse_connect opening)
                       (events ++ RequestClosed :: after))
             = chunks (sse_run (sse_connect opening) events)).
Proof.
  intros World w events.
  eexists. eexists. split; [reflexivity |].
  cbn [sse_first_chunk].
  split; [reflexivity |]. split; [apply JSON_stringify_printable |]. split.
  - rewrite sse_run_chunks by reflexivity. reflexivity.
  - intros after. unfold sse_run. rewrite fold_left_app.
    cbn [fold_left]. fold (sse_run (sse_connect
      {| sse_headers :=
           [("Content-Type", "text/event-stream");
            ("Cache-Control", "no-cache");
            ("Connection", "keep-alive")];
         sse_first_chunk :=
           lit "data: "
             ++ JSON_stringify
                  (object [("type", str "metadata");
                           ("metadata", sse_metadata)])
             ++ [10; 10] |}) events).
    match goal with
    | |- chunks (fold_left sse_on after ?c) = _ =>
        change (fold_left sse_on after c) with (sse_run c after);
        rewrite (sse_run_closed after c) by reflexivity
    end.
    reflexivity.
Qed.

(** ** Start-up *)

Lemma truthy_length (x : option jsstring) :
  truthy x = negb (length_or_zero x =? 0).
Proof.
  destruct x as [[| u s] |]; reflexivity.
Qed.

(** Start-up ends in [process.exit(1)], before any client is built, exactly
    when [GITHUB_TOKEN] is unset or empty; otherwise the server listens with
    the token as the client's credential. *)
Lemma startup_requires_token (env : Env) :
  (truthy (env_get (lit "GITHUB_TOKEN") env) = false
   /\ boot (startup env) = Exited 1)
  \/ (exists token,
         env_get (lit "GITHUB_TOKEN") env = Some token
         /\ token <> []
         /\ boot (startup env) = Listening (port_of env) token).
Proof.
  unfold startup.
  destruct (env_get (lit "GITHUB_TOKEN") env) as [[| u t] |].
  - left. split; reflexivity.
  - right. exists (u :: t). repeat split. discriminate.
  - left. split; reflexivity.
Qed.

(** X14.  The logs of start-up do not reveal the token: two environments
    with the same variable names, the same [PORT], an [MCP_API_KEY] set in
    both or in neither, and tokens of the same length produce the same
    [console.log] and [console.error] output and the same decision to exit or
    to listen (on the same port), whatever the characters of the token and
    the values of all other variables. *)
Theorem startup_logs_hide_the_token :
  forall env1 env2 : Env,
    map fst env1 = map fst env2 ->
    env_get (lit "PORT") env1 = env_get (lit "PORT") env2 ->
    truthy (env_get (lit "MCP_API_KEY") env1)
    = truthy (env_get (lit "MCP_API_KEY") env2) ->
    length_or_zero (env_get (lit "GITHUB_TOKEN") env1)
    = length_or_zero (env_get (lit "GITHUB_TOKEN") env2) ->
    observable (startup env1) = observable (startup env2).
Proof.
  intros env1 env2 Hkeys Hport Hkey Hlen.
  assert (Hcheck : environment_check env1 = environment_check env2).
  { unfold environment_check. cbv zeta.
    rewrite Hkeys, Hkey, Hlen, (truthy_length (env_get _ env1)), Hlen,
      <- truthy_length.
    reflexivity. }
  assert (Htruthy : truthy (env_get (lit "GITHUB_TOKEN") env1)
                    = truthy (env_get (lit "GITHUB_TOKEN") env2)).
  { rewrite !truthy_length, Hlen. reflexivity. }
  unfold startup, observable, port_of. cbv zeta. rewrite Hport.
  destruct (env_get (lit "GITHUB_TOKEN") env1) as [[| u1 t1] |];
    destruct (env_get (lit "GITHUB_TOKEN") env2) as [[| u2 t2] |];
    cbn [truthy] in Htruthy; try discriminate;
    cbn [console_log console_error boot]; rewrite Hcheck; reflexivity.
Qed.

Lemma startup_logs_hide_the_token_witness :
  map fst (example_env "ghp_alpha") = map fst (example_env "ghp_omega")
  /\ length_or_zero (env_get (lit "GITHUB_TOKEN") (example_env "ghp_alpha"))
     = length_or_zero (env_get (lit "GITHUB_TOKEN") (example_env "ghp_omega"))
  /\ boot (startup (example_env "ghp_alpha"))
     <> boot (startup (example_env "ghp_omega"))
  /\ observable (startup (example_env "ghp_alpha"))
     = observable (startup (example_env "ghp_omega")).
Proof.
  split; [reflexivity |]. split; [reflexivity |]. split.
  - intros H. vm_compute in H. discriminate H.
  - apply (startup_logs_hide_the_token (example_env "ghp_alpha")
             (example_env "ghp_omega")); reflexivity.
Defined.

(** ** create_or_update_file without content *)

(** X15.  When [content] is missing, create_or_update_file still performs
    the existence check but issues no write: [Buffer.from] throws first, the
    answer is that error, and the upstream is left as the read left it.  Both
    adapters. *)
Theorem create_or_update_file_without_content_writes_nothing :
  forall (World : Type) (octokit : Octokit World) (w : World),
    (forall a : Arguments,
        a_content a = None ->
        post_execute octokit (invocation "create_or_update_file" a) w
        = (Normal (tool_error buffer_type_error),
           snd (repos_getContent octokit
                  {| cp_owner := a_owner a; cp_repo := a_repo a;
                     cp_path := a_path a; cp_ref := a_branch a |} w)))
    /\ (forall req : PutContentsReq,
           pc_content req = None ->
           put_contents octokit req w
           = (Normal (rest_error buffer_type_error),
              snd (repos_getContent octokit
                     {| cp_owner := Some (pc_owner req);
                        cp_repo := Some (pc_repo req);
                        cp_path := Some (pc_path req);
                        cp_ref := pc_branch req |} w))).
Proof.
  intros World octokit w.
  split; intros x Hnone; unfold post_execute, put_contents; run; dispatch; run;
    rewrite Hnone; cbn [Buffer_from];
    match goal with
    | |- context [repos_getContent ?o ?p ?v] =>
        destruct (repos_getContent o p v) as [[d | e] w1]
    end; reflexivity.
Qed.

Lemma create_or_update_file_without_content_writes_nothing_witness :
  pc_content
    {| pc_owner := lit "octo"; pc_repo := lit "demo";
       pc_path := lit "README.md"; pc_content := None;
       pc_message := Some (lit "update"); pc_branch := None |} = None
  /\ put_contents Fixture.client
       {| pc_owner := lit "octo"; pc_repo := lit "demo";
          pc_path := lit "README.md"; pc_content := None;
          pc_message := Some (lit "update"); pc_branch := None |} Fixture.host
     = (Normal (rest_error buffer_type_error), Fixture.host).
Proof.
  split; [reflexivity |].
  exact (proj2 (create_or_update_file_without_content_writes_nothing
                  Fixture.Host Fixture.client Fixture.host)
           {| pc_owner := lit "octo"; pc_repo := lit "demo";
              pc_path := lit "README.md"; pc_content := None;
              pc_message := Some (lit "update"); pc_branch := None |}
           eq_refl).
Defined.
